(** * Food Delivery API: menu-item creation and order placement

    A shallow embedding of [src/main.py]: the request schemas, the
    identifier normalisation ([to_object_id], [ObjectId.is_valid]), the
    two endpoints with logic of their own, [create_menu_item] and
    [place_order], and [create_restaurant] and the three listings, over a
    document store.

    Python values are modelled as they are at run time: [float] is IEEE 754
    binary64 (through [SpecFloat]), [int] is unbounded ([Z]), [str] is
    [string], a [dict] is an association list in insertion order, and an
    uncaught exception is an outcome of its own. *)

From Stdlib Require Import ZArith NArith String Ascii List Bool Lia.
From Stdlib Require Import Strings.Byte.
From Stdlib Require Import Floats.SpecFloat.
From stdpp Require Import gmap strings list.

Local Open Scope Z_scope.

(** ** Python floats *)

Module PyFloat.

Definition prec : Z := 53.
Definition emax : Z := 1024.

(** A Python [float]: a binary64 number. *)
Definition float : Type := spec_float.

(** [0.0] *)
Definition zero : float := S754_zero false.

(** [x + y] and [x * y] on floats, rounded to nearest, ties to even. *)
Definition add : float -> float -> float := SFadd prec emax.
Definition mul : float -> float -> float := SFmul prec emax.

(** The conversion of an [int] operand to [float]: the nearest binary64,
    [None] when the integer is too large (Python raises OverflowError,
    "int too large to convert to float"). *)
Definition of_int (z : Z) : option float :=
  match binary_normalize prec emax z 0 false with
  | S754_infinity _ => None
  | f => Some f
  end.

(** The binary64 nearest to the rational [p / q], with sign [s]. *)
Definition of_ratio (s : bool) (p q : positive) : float :=
  let '(mz, ez, lz) := SFdiv_core_binary prec emax (Zpos p) 0 (Zpos q) 0 in
  binary_round_aux prec emax s mz ez lz.

(** The float denoted by the decimal literal [digits * 10^-places]:
    [decimal 999 2] is Python's [9.99]. *)
Definition decimal (digits : positive) (places : N) : float :=
  match 10 ^ Z.of_N places with
  | Zpos q => of_ratio false digits q
  | _ => S754_nan
  end.

(** [num / den] rounded to the nearest integer, ties to even
    ([0 < den]). *)
Definition div_half_even (num den : Z) : Z :=
  let q := num / den in
  match (2 * (num mod den)) ?= den with
  | Lt => q
  | Gt => q + 1
  | Eq => if Z.even q then q else q + 1
  end.

(** [round(x, ndigits)] for a float [x] and [0 <= ndigits]: the exact
    value of [x] is rounded half-to-even to [ndigits] decimals, and the
    decimal obtained is converted back to the nearest float; zeros,
    infinities and NaN are returned as they are, and a result that
    rounds to zero keeps the sign of [x]. *)
Definition round (x : float) (ndigits : N) : float :=
  match x with
  | S754_finite s m e =>
      let scale := 10 ^ Z.of_N ndigits in
      let n := match e with
               | Zneg k => div_half_even (Zpos m * scale) (2 ^ Zpos k)
               | _ => Zpos m * scale * 2 ^ e
               end in
      match n, scale with
      | Zpos p, Zpos q => of_ratio s p q
      | _, _ => S754_zero s
      end
  | _ => x
  end.

(** The sum of a list of floats, accumulated from the left from [acc]. *)
Definition sum_from (acc : float) (xs : list float) : float :=
  fold_left add xs acc.

Definition is_zero (x : float) : bool :=
  match x with
  | S754_zero _ => true
  | _ => false
  end.

End PyFloat.

Abbreviation float := PyFloat.float.

(** ** Store-native identifiers (bson's ObjectId) *)

Module ObjectId.

(** An ObjectId is its bytes: 12 of them when it comes from the store or
    from 24 hexadecimal digits, fewer when [ObjectId(s)] was given a
    24-character string with blanks. *)
Definition t : Type := list byte.

Fixpoint eqb (a b : t) : bool :=
  match a, b with
  | [], [] => true
  | x :: a', y :: b' => Byte.eqb x y && eqb a' b'
  | _, _ => false
  end.

(** The value of a hexadecimal digit, in either case. *)
Definition hex_value (c : ascii) : option N :=
  let n := N_of_ascii c in
  if ((48 <=? n) && (n <=? 57))%N then Some (n - 48)%N
  else if ((97 <=? n) && (n <=? 102))%N then Some (n - 87)%N
  else if ((65 <=? n) && (n <=? 70))%N then Some (n - 55)%N
  else None.

Definition is_hex (c : ascii) : bool :=
  match hex_value c with
  | Some _ => true
  | None => false
  end.

(** The lower-case hexadecimal digit of [n < 16]. *)
Definition hex_digit (n : N) : ascii :=
  ascii_of_N (if (n <? 10)%N then n + 48 else n + 87)%N.

Definition byte_of_digits (hi lo : N) : byte :=
  match Byte.of_N (16 * hi + lo) with
  | Some b => b
  | None => x00
  end.

(** ASCII whitespace: tab, line feed, vertical tab, form feed, carriage
    return and space. *)
Definition is_space (c : ascii) : bool :=
  let n := N_of_ascii c in
  ((9 <=? n) && (n <=? 13) || (n =? 32))%N.

(** [bytes.fromhex]: two hexadecimal digits per byte; ASCII whitespace is
    skipped before a byte and at the end, and is an error between the two
    digits of a byte. [None] is its ValueError. *)
Fixpoint fromhex (s : string) : option (list byte) :=
  match s with
  | EmptyString => Some []
  | String a rest =>
      if is_space a then fromhex rest
      else
        match rest with
        | EmptyString => None
        | String b rest' =>
            match hex_value a, hex_value b, fromhex rest' with
            | Some hi, Some lo, Some bs => Some (byte_of_digits hi lo :: bs)
            | _, _, _ => None
            end
        end
  end.

(** [str(oid)]: two lower-case hexadecimal digits per byte. *)
Fixpoint to_string (o : t) : string :=
  match o with
  | [] => EmptyString
  | b :: rest =>
      String (hex_digit (Byte.to_N b / 16))
        (String (hex_digit (Byte.to_N b mod 16)) (to_string rest))
  end.

(** [ObjectId(s)] for a string: a string of 24 characters that
    [bytes.fromhex] accepts gives the identifier of the bytes, anything
    else raises InvalidId ([None]). *)
Definition of_string (s : string) : option t :=
  if (String.length s =? 24)%nat then fromhex s else None.

(** [ObjectId.is_valid(s)]: whether [ObjectId(s)] succeeds. *)
Definition is_valid (s : string) : bool :=
  match of_string s with
  | Some _ => true
  | None => false
  end.

End ObjectId.

(** ** Values and documents *)

(** The values that the documents of the endpoints hold, as the driver
    gives them to Python: [None], [bool], [int], [float], [str],
    [ObjectId], [list] and [dict]. *)
#[warnings="-register-all"] Inductive value : Type :=
| VNone
| VBool (b : bool)
| VInt (z : Z)
| VFloat (f : float)
| VStr (s : string)
| VObjectId (o : ObjectId.t)
| VList (l : list value)
| VDict (d : list (string * value)).

(** A document is a Python [dict] with string keys. *)
Abbreviation document := (list (string * value)).

Fixpoint dict_lookup (d : document) (k : string) : option value :=
  match d with
  | [] => None
  | (k', v) :: d' => if String.eqb k' k then Some v else dict_lookup d' k
  end.

(** [d.get(k, default)] *)
Definition get (d : document) (k : string) (default : value) : value :=
  match dict_lookup d k with
  | Some v => v
  | None => default
  end.

(** ** Outcomes *)

(** The exceptions that the endpoints raise, and what a call comes to. *)

Inductive exn : Type :=
| HTTPException (status_code : Z) (detail : string)
| TypeError
| ValueError
| OverflowError.

Inductive outcome (A : Type) : Type :=
| Return (a : A)
| Raise (e : exn).

Arguments Return {A} a.
Arguments Raise {A} e.

(** ** The document store *)

(** The database: collection name to the documents of the collection, in
    insertion order.  Failures of the store itself (connection, encoding)
    are outside the model. *)
Abbreviation store := (gmap string (list document)).

(** [db[c]] *)
Definition db (st : store) (c : string) : list document :=
  default [] (st !! c).

(** Equality of a queried [_id] with a stored one: an ObjectId equals the
    ObjectId with the same bytes, a string the same string, and values of
    different types never match. *)
Definition id_matches (key v : value) : bool :=
  match key, v with
  | VObjectId a, VObjectId b => ObjectId.eqb a b
  | VStr a, VStr b => String.eqb a b
  | _, _ => false
  end.

Definition has_id (key : value) (d : document) : bool :=
  match dict_lookup d "_id" with
  | Some v => id_matches key v
  | None => false
  end.

(** [coll.find_one({"_id": key})]: the first document of the collection
    whose [_id] is [key]. *)
Definition find_one (coll : list document) (key : value) : option document :=
  List.find (has_id key) coll.

(** Computations of an endpoint: they read and write the store and return
    or raise. *)
Definition M (A : Type) : Type := store -> outcome A * store.

Definition ret {A} (a : A) : M A := fun st => (Return a, st).
Definition raise {A} (e : exn) : M A := fun st => (Raise e, st).
Definition bind {A B} (c : M A) (k : A -> M B) : M B :=
  fun st =>
    match c st with
    | (Return a, st') => k a st'
    | (Raise e, st') => (Raise e, st')
    end.
Definition lift {A} (o : outcome A) : M A := fun st => (o, st).

Notation "x <- c ;; k" := (bind c (fun x => k))
  (at level 100, c at next level, right associativity).

(** [db[c].find_one({"_id": key})] *)
Definition db_find_one (c : string) (key : value) : M (option document) :=
  fun st => (Return (find_one (db st c) key), st).

(** Modelled from the spec: [create_document] of the [database] module,
    which is not among the sources; the spec gives the store's
    [insert(collection, document) -> identifier].  The document is added to
    the named collection under the identifier [oid] that the store
    generates for it, and the identifier is returned as a string. *)
Definition create_document (oid : ObjectId.t) (c : string) (data : document)
  : M string :=
  fun st =>
    (Return (ObjectId.to_string oid),
     <[c := db st c ++ [("_id", VObjectId oid) :: data]]> st).

(** ** Request schemas *)

Definition optional_str (o : option string) : value :=
  match o with
  | Some s => VStr s
  | None => VNone
  end.

(** Each schema with its [model_dump()], the dict of its fields. *)

Module MenuItemIn.
Record t : Type := {
  restaurant_id : string;
  title : string;
  description : option string;
  price : float;
  image_url : option string;
  vegetarian : bool
}.
Definition model_dump (p : t) : document :=
  [("restaurant_id", VStr (restaurant_id p));
   ("title", VStr (title p));
   ("description", optional_str (description p));
   ("price", VFloat (price p));
   ("image_url", optional_str (image_url p));
   ("vegetarian", VBool (vegetarian p))].
End MenuItemIn.

Module OrderItemIn.
Record t : Type := {
  menu_item_id : string;
  quantity : Z
}.
Definition model_dump (i : t) : document :=
  [("menu_item_id", VStr (menu_item_id i));
   ("quantity", VInt (quantity i))].
End OrderItemIn.

Module OrderIn.
Record t : Type := {
  customer_name : string;
  address : string;
  restaurant_id : string;
  items : list OrderItemIn.t
}.
End OrderIn.

Module RestaurantIn.
Record t : Type := {
  name : string;
  cuisine : string;
  rating : float;
  delivery_time_min : Z;
  image_url : option string
}.
Definition model_dump (p : t) : document :=
  [("name", VStr (name p));
   ("cuisine", VStr (cuisine p));
   ("rating", VFloat (rating p));
   ("delivery_time_min", VInt (delivery_time_min p));
   ("image_url", optional_str (image_url p))].
End RestaurantIn.

(** ** Endpoints *)

(** [to_object_id], lines 61-65. *)
Definition to_object_id (id_str : string) : outcome ObjectId.t :=
  match ObjectId.of_string id_str with
  | Some o => Return o
  | None => Raise (HTTPException 400 "Invalid ID format")
  end.

(** The conditional lookup of lines 124 and 136:
    [db[c].find_one({"_id": to_object_id(s)}) if ObjectId.is_valid(s)
     else db[c].find_one({"_id": s})]. *)
Definition find_by_id (c : string) (id_str : string) : M (option document) :=
  if ObjectId.is_valid id_str
  then (o <- lift (to_object_id id_str) ;; db_find_one c (VObjectId o))
  else db_find_one c (VStr id_str).

(** The key that [find_by_id] queries with. *)
Definition lookup_key (id_str : string) : value :=
  match ObjectId.of_string id_str with
  | Some o => VObjectId o
  | None => VStr id_str
  end.

(** [x * n] for a float [x] and an int [n]: [n] is converted first. *)
Definition float_mul_int (x : float) (n : Z) : outcome float :=
  match PyFloat.of_int n with
  | Some f => Return (PyFloat.mul x f)
  | None => Raise OverflowError
  end.

Section Endpoints.

(** [float(s)] for a string [s], Python's parser of float literals, left
    abstract; [None] when it raises ValueError. *)
Variable float_of_str : string -> option float.

(** [float(v)] *)
Definition float_ (v : value) : outcome float :=
  match v with
  | VFloat f => Return f
  | VInt z =>
      match PyFloat.of_int z with
      | Some f => Return f
      | None => Raise OverflowError
      end
  | VBool b => Return (if b then PyFloat.decimal 1 0 else PyFloat.zero)
  | VStr s =>
      match float_of_str s with
      | Some f => Return f
      | None => Raise ValueError
      end
  | VNone | VObjectId _ | VList _ | VDict _ => Raise TypeError
  end.

(** [create_menu_item], lines 121-128, where [oid] is the identifier that
    the store generates for the menu item.  The result of [find_one] is
    falsy when it is [None] or an empty document. *)
Definition create_menu_item (oid : ObjectId.t) (payload : MenuItemIn.t)
  : M document :=
  rest <- find_by_id "restaurant" (MenuItemIn.restaurant_id payload) ;;
  match rest with
  | Some (_ :: _) =>
      mid <- create_document oid "menuitem" (MenuItemIn.model_dump payload) ;;
      ret [("id", VStr mid)]
  | _ => raise (HTTPException 404 "Restaurant not found")
  end.

(** The loop of [place_order], lines 135-139, from the running [total]. *)
Fixpoint place_order_loop (its : list OrderItemIn.t) (total : float)
  : M float :=
  match its with
  | [] => ret total
  | item :: its' =>
      mi <- find_by_id "menuitem" (OrderItemIn.menu_item_id item) ;;
      match mi with
      | Some ((_ :: _) as mi) =>
          p <- lift (float_ (get mi "price" (VInt 0))) ;;
          amount <- lift (float_mul_int p (OrderItemIn.quantity item)) ;;
          place_order_loop its' (PyFloat.add total amount)
      | _ =>
          raise (HTTPException 404
                   ("Menu item not found: " +:+ OrderItemIn.menu_item_id item))
      end
  end.

(** The order document of lines 141-148. *)
Definition order_doc (payload : OrderIn.t) (total : float) : document :=
  [("customer_name", VStr (OrderIn.customer_name payload));
   ("address", VStr (OrderIn.address payload));
   ("restaurant_id", VStr (OrderIn.restaurant_id payload));
   ("items", VList (map (fun i => VDict (OrderItemIn.model_dump i))
                        (OrderIn.items payload)));
   ("total", VFloat (PyFloat.round total 2));
   ("status", VStr "placed")].

(** [place_order], lines 131-150, where [oid] is the identifier that the
    store generates for the order. *)
Definition place_order (oid : ObjectId.t) (payload : OrderIn.t) : M document :=
  total <- place_order_loop (OrderIn.items payload) PyFloat.zero ;;
  let doc := order_doc payload total in
  id <- create_document oid "order" doc ;;
  ret [("id", VStr id);
       ("total", get doc "total" VNone);
       ("status", get doc "status" VNone)].

(** ** The other endpoints *)

(** [create_restaurant], lines 107-110, where [oid] is the identifier that
    the store generates for the restaurant. *)
Definition create_restaurant (oid : ObjectId.t) (payload : RestaurantIn.t)
  : M document :=
  rid <- create_document oid "restaurant" (RestaurantIn.model_dump payload) ;;
  ret [("id", VStr rid)].

(** Whether a stored field equals the string of an equality filter: the
    field is that string, or an array with that string among its
    elements. *)
Definition field_is (s : string) (v : value) : bool :=
  match v with
  | VStr s' => String.eqb s s'
  | VList l =>
      existsb (fun x => match x with
                        | VStr s' => String.eqb s s'
                        | _ => false
                        end) l
  | _ => false
  end.

(** Whether a document has, for every field of the filter, the string that
    the filter gives it. *)
Definition matches (filter_dict : list (string * string)) (d : document)
  : bool :=
  forallb (fun kv => match dict_lookup d (fst kv) with
                     | Some v => field_is (snd kv) v
                     | None => false
                     end) filter_dict.

(** Modelled from the spec: [get_documents] of the [database] module,
    which is not among the sources; the spec gives the store's
    [find_many(collection, filter?) -> sequence of document].  The
    documents of the collection that match the filter, in the order of
    the collection; the endpoints filter on strings only. *)
Definition get_documents (c : string) (filter_dict : list (string * string))
    (st : store) : list document :=
  List.filter (matches filter_dict) (db st c).

(** [d[k] = v]: the value of an existing key is replaced in place, a new
    key is added at the end. *)
Fixpoint dict_set (d : document) (k : string) (v : value) : document :=
  match d with
  | [] => [(k, v)]
  | (k', v') :: d' =>
      if String.eqb k' k then (k', v) :: d' else (k', v') :: dict_set d' k v
  end.

(** [str(v)] for a value other than an ObjectId or a string, left
    abstract. *)
Variable py_str : value -> string.

(** [str(v)] *)
Definition str_ (v : value) : string :=
  match v with
  | VObjectId o => ObjectId.to_string o
  | VStr s => s
  | _ => py_str v
  end.

(** The loop [for d in docs: d["_id"] = str(d["_id"])] of the listing
    endpoints, which then return [docs]; [None] when a document has no
    [_id] (KeyError). *)
Fixpoint stringify_ids (docs : list document) : option (list document) :=
  match docs with
  | [] => Some []
  | d :: docs' =>
      match dict_lookup d "_id" with
      | Some v =>
          match stringify_ids docs' with
          | Some rest => Some (dict_set d "_id" (VStr (str_ v)) :: rest)
          | None => None
          end
      | None => None
      end
  end.

(** [list_restaurants], lines 99-104. *)
Definition list_restaurants (st : store) : option (list document) :=
  stringify_ids (get_documents "restaurant" [] st).

(** [list_menu], lines 113-118. *)
Definition list_menu (restaurant_id : string) (st : store)
  : option (list document) :=
  stringify_ids (get_documents "menuitem" [("restaurant_id", restaurant_id)]
                   st).

(** [list_orders], lines 153-158. *)
Definition list_orders (st : store) : option (list document) :=
  stringify_ids (get_documents "order" [] st).

(** ** Definitions used to state the properties *)

(** The document of collection [c] that an identifier string resolves to:
    the one stored under the key of the string. *)
Definition resolve (st : store) (c : string) (id_str : string)
  : option document :=
  find_one (db st c) (lookup_key id_str).

(** What one line adds to the total: the stored price of the menu item
    the line resolves to (0 when the document has no price), as a float,
    times the quantity; NotFound when the line does not resolve. *)
Definition line_amount (st : store) (item : OrderItemIn.t) : outcome float :=
  match resolve st "menuitem" (OrderItemIn.menu_item_id item) with
  | Some mi =>
      match float_ (get mi "price" (VInt 0)) with
      | Return p => float_mul_int p (OrderItemIn.quantity item)
      | Raise e => Raise e
      end
  | None =>
      Raise (HTTPException 404
               ("Menu item not found: " +:+ OrderItemIn.menu_item_id item))
  end.

(** The line resolves to a stored menu item, its price and its quantity
    convert to the floats [p] and [q], and [amount] is their product. *)
Definition priced_line (st : store) (item : OrderItemIn.t) (amount : float)
  : Prop :=
  exists (mi : document) (p q : float),
    resolve st "menuitem" (OrderItemIn.menu_item_id item) = Some mi /\
    float_ (get mi "price" (VInt 0)) = Return p /\
    PyFloat.of_int (OrderItemIn.quantity item) = Some q /\
    amount = PyFloat.mul p q.

(** The sum of the line amounts, rounded to 2 decimals. *)
Definition rounded_total (amounts : list float) : float :=
  PyFloat.round (PyFloat.sum_from PyFloat.zero amounts) 2.

(** The response to a placed order. *)
Definition order_response (oid : ObjectId.t) (total : float) : document :=
  [("id", VStr (ObjectId.to_string oid));
   ("total", VFloat total);
   ("status", VStr "placed")].

(** The store after the document [data] was inserted in collection [c]
    under the identifier [oid]. *)
Definition inserted (oid : ObjectId.t) (c : string) (data : document)
    (st : store) : store :=
  <[c := db st c ++ [("_id", VObjectId oid) :: data]]> st.

(** The total of a response, or the exception raised. *)
Definition total_of (r : outcome document) : outcome value :=
  match r with
  | Return d => Return (get d "total" VNone)
  | Raise e => Raise e
  end.

(** The totals of the orders that were added to [st] to give [st']. *)
Definition new_order_totals (st st' : store) : list (option value) :=
  map (fun d => dict_lookup d "total")
      (drop (length (db st "order")) (db st' "order")).

(** Whether a string is a 24-character hexadecimal string. *)
Definition well_formed (s : string) : bool :=
  (String.length s =? 24)%nat
  && forallb ObjectId.is_hex (list_ascii_of_string s).

(** Every stored document has an [_id]. *)
Definition has_ids (st : store) : Prop :=
  forall c d, In d (db st c) -> dict_lookup d "_id" <> None.

(** The listing of a stored document: its [_id] as a string, the other
    fields as they are. *)
Definition listed (d : document) : document :=
  dict_set d "_id" (VStr (str_ (get d "_id" VNone))).

(** [0 <= x] on floats, the constraint [ge=0] of [schemas.py]. *)
Definition ge0 (x : float) : bool := SFleb PyFloat.zero x.

(** A character in lower case, and a string in lower case. *)
Definition lower (c : ascii) : ascii :=
  let n := N_of_ascii c in
  if ((65 <=? n) && (n <=? 90))%N then ascii_of_N (n + 32) else c.

Fixpoint lower_str (s : string) : string :=
  match s with
  | EmptyString => EmptyString
  | String c s' => String (lower c) (lower_str s')
  end.

(** A string of pairs of hexadecimal digits, with ASCII whitespace before,
    between and after the pairs, but not inside one. *)
Inductive hex_pairs : string -> Prop :=
| hex_pairs_nil : hex_pairs EmptyString
| hex_pairs_space c s :
    ObjectId.is_space c = true -> hex_pairs s -> hex_pairs (String c s)
| hex_pairs_pair a b s :
    ObjectId.is_hex a = true -> ObjectId.is_hex b = true ->
    hex_pairs s -> hex_pairs (String a (String b s)).

(** A string without its ASCII whitespace. *)
Fixpoint without_spaces (s : string) : string :=
  match s with
  | EmptyString => EmptyString
  | String c s' =>
      if ObjectId.is_space c then without_spaces s'
      else String c (without_spaces s')
  end.

(** ** Sample data *)

Definition roma_id : ObjectId.t :=
  [x65; x4a; x1b; x2c; x3d; x4e; x5f; x60; x71; x82; x93; xa3].
Definition soup_id : ObjectId.t :=
  [x65; x4a; x1b; x2c; x3d; x4e; x5f; x60; x71; x82; x93; xa4].
Definition new_id : ObjectId.t :=
  [x65; x4a; x1b; x2c; x3d; x4e; x5f; x60; x71; x82; x93; xa5].

Definition soup : document :=
  [("_id", VObjectId soup_id);
   ("restaurant_id", VStr "654a1b2c3d4e5f60718293a3");
   ("title", VStr "Soup");
   ("price", VFloat (PyFloat.decimal 999 2))].

Definition water : document :=
  [("_id", VStr "water"); ("title", VStr "Water")].

(** One restaurant, a soup at 9.99 under a native identifier, and a
    document without a price under a string identifier. *)
Definition sample_store : store :=
  <["restaurant" := [[("_id", VObjectId roma_id); ("name", VStr "Roma")]]]>
    (<["menuitem" := [soup; water]]> ∅).

Definition line (id_str : string) (n : Z) : OrderItemIn.t :=
  {| OrderItemIn.menu_item_id := id_str; OrderItemIn.quantity := n |}.

Definition sample_order (its : list OrderItemIn.t) : OrderIn.t :=
  {| OrderIn.customer_name := "Ann";
     OrderIn.address := "1 Road";
     OrderIn.restaurant_id := "654a1b2c3d4e5f60718293a3";
     OrderIn.items := its |}.

Definition sample_menu_item (rid : string) : MenuItemIn.t :=
  {| MenuItemIn.restaurant_id := rid;
     MenuItemIn.title := "Salad";
     MenuItemIn.description := None;
     MenuItemIn.price := PyFloat.decimal 45 1;
     MenuItemIn.image_url := None;
     MenuItemIn.vegetarian := true |}.

(** A 24-character string of 11 pairs of hexadecimal digits and two
    blanks, the 11 bytes of its pairs, and a store with a menu item under
    that string. *)
Definition blank_str : string := "654a1b2c3d4e5f60718293  ".

Definition short_id : ObjectId.t :=
  [x65; x4a; x1b; x2c; x3d; x4e; x5f; x60; x71; x82; x93].

Definition tea : document :=
  [("_id", VStr blank_str); ("title", VStr "Tea");
   ("price", VFloat (PyFloat.decimal 25 1))].

Definition blank_store : store :=
  <["restaurant" := [[("_id", VStr blank_str); ("name", VStr "Cafe")]]]>
    (<["menuitem" := [tea]]> ∅).

(** A restaurant to create. *)
Definition sample_restaurant : RestaurantIn.t :=
  {| RestaurantIn.name := "Roma";
     RestaurantIn.cuisine := "Italian";
     RestaurantIn.rating := PyFloat.decimal 45 1;
     RestaurantIn.delivery_time_min := 30;
     RestaurantIn.image_url := None |}.

(** A store as [sample_store] with one order more, and a request with the
    lines of [sample_order] and other fields. *)
Definition other_store : store :=
  inserted roma_id "order" [("total", VFloat PyFloat.zero)] sample_store.

Definition other_order (its : list OrderItemIn.t) : OrderIn.t :=
  {| OrderIn.customer_name := "Bob";
     OrderIn.address := "2 Lane";
     OrderIn.restaurant_id := "elsewhere";
     OrderIn.items := its |}.

(** ** Floats *)

(** Rounding at two decimals goes to the nearest, ties to even, on the
    exact binary value: 0.125 gives 0.12, 0.375 gives 0.38, 2.675, which
    is below the tie as a float, gives 2.67, and -0.001 gives -0.0. *)
Example round_examples :
  PyFloat.round (PyFloat.decimal 125 3) 2 = PyFloat.decimal 12 2
  /\ PyFloat.round (PyFloat.decimal 375 3) 2 = PyFloat.decimal 38 2
  /\ PyFloat.round (PyFloat.decimal 2675 3) 2 = PyFloat.decimal 267 2
  /\ PyFloat.round (SFopp (PyFloat.decimal 1 3)) 2 = S754_zero true.
Proof. repeat split; vm_compute; reflexivity. Qed.

(** The largest integer that converts is just below 2^1024 - 2^970. *)
Example of_int_range :
  PyFloat.of_int (2 ^ 1024 - 2 ^ 970 - 1)
    = Some (S754_finite false (2 ^ 53 - 1) 971)
  /\ PyFloat.of_int (2 ^ 1024 - 2 ^ 970) = None
  /\ PyFloat.of_int (- 2 ^ 1024) = None.
Proof. repeat split; vm_compute; reflexivity. Qed.

Lemma digits2_pos_lower p : 2 ^ (Zpos (digits2_pos p) - 1) <= Zpos p.
Proof.
  induction p as [p IH|p IH|]; cbn [digits2_pos]; [| |done];
    rewrite Pos2Z.inj_succ;
    replace (Z.succ (Zpos (digits2_pos p)) - 1)
      with (Z.succ (Zpos (digits2_pos p) - 1)) by lia;
    rewrite Z.pow_succ_r by lia; lia.
Qed.

Lemma digits2_pos_upper p : Zpos p < 2 ^ Zpos (digits2_pos p).
Proof.
  induction p as [p IH|p IH|]; cbn [digits2_pos]; [| |done];
    rewrite Pos2Z.inj_succ, Z.pow_succ_r by lia; lia.
Qed.

Lemma Zdigits2_le m k : 0 <= k -> 0 <= m < 2 ^ k -> Zdigits2 m <= k.
Proof.
  intros Hk [Hm Hlt]. destruct m as [|p|p]; cbn [Zdigits2]; [lia| |lia].
  pose proof (digits2_pos_lower p) as Hl.
  destruct (Z_le_gt_dec (Zpos (digits2_pos p)) k) as [|Hgt]; [done|].
  assert (2 ^ k <= 2 ^ (Zpos (digits2_pos p) - 1))
    by (apply Z.pow_le_mono_r; lia).
  lia.
Qed.

Lemma shr_1_bounds mrs :
  0 <= shr_m mrs -> 0 <= shr_m (shr_1 mrs) <= shr_m mrs.
Proof. destruct mrs as [[|[p|p|]|p] r s]; cbn; lia. Qed.

Lemma iter_shr_1_bounds p : forall mrs,
  0 <= shr_m mrs ->
  0 <= shr_m (SpecFloat.iter_pos shr_1 p mrs) <= shr_m mrs.
Proof.
  induction p as [p IH|p IH|]; intros mrs Hm; cbn [SpecFloat.iter_pos].
  - pose proof (shr_1_bounds mrs Hm) as H1.
    pose proof (IH _ (proj1 H1)) as H2.
    pose proof (IH _ (proj1 H2)) as H3. lia.
  - pose proof (IH _ Hm) as H2.
    pose proof (IH _ (proj1 H2)) as H3. lia.
  - by apply shr_1_bounds.
Qed.

(** A shift to the exponent of the format keeps the mantissa non-negative
    and does not increase it, and bounds the exponent. *)
Lemma shr_fexp_bounds m e l :
  0 <= m ->
  0 <= shr_m (fst (shr_fexp PyFloat.prec PyFloat.emax m e l)) <= m
  /\ snd (shr_fexp PyFloat.prec PyFloat.emax m e l)
     <= Z.max e (fexp PyFloat.prec PyFloat.emax (Zdigits2 m + e)).
Proof.
  intros Hm. unfold shr_fexp, shr.
  assert (Hrec : shr_m (shr_record_of_loc m l) = m)
    by (by destruct l as [|[]]).
  destruct (_ - e) as [|n|n] eqn:Hn; cbn [fst snd]; rewrite ?Hrec;
    try lia.
  split; [|lia].
  rewrite <- Hrec at 3. apply iter_shr_1_bounds. lia.
Qed.

Lemma round_nearest_even_bounds m l :
  0 <= m -> 0 <= round_nearest_even m l <= m + 1.
Proof.
  intros Hm. unfold round_nearest_even.
  destruct l as [|[]]; try destruct (Z.even _); lia.
Qed.

Lemma binary_round_aux_not_nan s m e l :
  0 <= m ->
  binary_round_aux PyFloat.prec PyFloat.emax s m e l <> S754_nan.
Proof.
  intros Hm. unfold binary_round_aux.
  destruct (shr_fexp_bounds m e l Hm) as [H1 _].
  destruct (shr_fexp _ _ m e l) as [mrs' e']. cbn [fst] in H1.
  pose proof (round_nearest_even_bounds (shr_m mrs')
                (loc_of_shr_record mrs') (proj1 H1)) as Hr.
  destruct (shr_fexp_bounds _ e' loc_Exact (proj1 Hr)) as [H2 _].
  destruct (shr_fexp _ _ _ e' loc_Exact) as [mrs'' e'']. cbn [fst] in H2.
  destruct (shr_m mrs''); [done | by destruct (_ <=? _) | lia].
Qed.

(** Rounding a mantissa below 2^65 with a non-positive exponent does not
    overflow. *)
Lemma binary_round_aux_finite s m e l :
  0 <= m < 2 ^ 65 -> e <= 0 ->
  forall s', binary_round_aux PyFloat.prec PyFloat.emax s m e l
             <> S754_infinity s'.
Proof.
  intros [Hm Hlt] He s'. unfold binary_round_aux.
  destruct (shr_fexp_bounds m e l Hm) as [H1 He'].
  pose proof (Zdigits2_le m 65 ltac:(lia) (conj Hm Hlt)) as Hd.
  destruct (shr_fexp _ _ m e l) as [mrs' e']. cbn [fst snd] in H1, He'.
  pose proof (round_nearest_even_bounds (shr_m mrs')
                (loc_of_shr_record mrs') (proj1 H1)) as Hm1.
  set (m1 := round_nearest_even _ _) in *.
  destruct (shr_fexp_bounds m1 e' loc_Exact (proj1 Hm1)) as [H2 He''].
  pose proof (Zdigits2_le m1 66 ltac:(lia) ltac:(lia)) as Hd1.
  destruct (shr_fexp _ _ m1 e' loc_Exact) as [mrs'' e''].
  cbn [fst snd] in H2, He''.
  unfold fexp, emin, PyFloat.prec, PyFloat.emax in *.
  destruct (shr_m mrs''); [done| |done].
  destruct (Z.leb_spec e'' (1024 - 53)); [done | lia].
Qed.

(** An integer converts to a zero or to a finite float. *)
Lemma of_int_zero_or_finite z q :
  PyFloat.of_int z = Some q ->
  (exists s, q = S754_zero s) \/ (exists s m e, q = S754_finite s m e).
Proof.
  unfold PyFloat.of_int.
  assert (Hnan : binary_normalize PyFloat.prec PyFloat.emax z 0 false
                 <> S754_nan).
  { destruct z as [|p|p]; cbn [binary_normalize]; [done|..];
      unfold binary_round; destruct (shl_align _ _ _);
      by apply binary_round_aux_not_nan. }
  destruct (binary_normalize _ _ z 0 false) as [s|s| |s m e];
    intros [= <-]; [left | done | right]; eauto.
Qed.

(** Every integer of at most 64 bits converts. *)
Lemma of_int_int64 z :
  - 2 ^ 63 <= z < 2 ^ 63 -> exists q, PyFloat.of_int z = Some q.
Proof.
  intros Hz. unfold PyFloat.of_int.
  assert (Hround : forall s (p : positive), Zpos p <= 2 ^ 63 -> forall s',
    binary_round PyFloat.prec PyFloat.emax s p 0 <> S754_infinity s').
  { intros s p Hp s'. unfold binary_round, shl_align.
    pose proof (digits2_pos_upper p) as Hup.
    pose proof (Zdigits2_le (Zpos p) 64 ltac:(lia) ltac:(lia)) as Hd.
    cbn [Zdigits2] in Hd.
    unfold fexp, emin, PyFloat.prec, PyFloat.emax.
    destruct (_ - 0) as [|n|n] eqn:Hn;
      [apply binary_round_aux_finite; lia..|].
    apply binary_round_aux_finite; [|lia].
    split; [lia|].
    change (Pos.iter xO p n) with (shift_pos n p).
    rewrite shift_pos_correct, <- Z.pow_pos_fold.
    assert (Zpos n = 53 - Zpos (digits2_pos p)) by lia.
    assert (2 ^ Zpos n * 2 ^ Zpos (digits2_pos p) = 2 ^ 53)
      by (rewrite <- Z.pow_add_r by lia; f_equal; lia).
    nia. }
  assert (Hfin : forall s',
    binary_normalize PyFloat.prec PyFloat.emax z 0 false
    <> S754_infinity s').
  { destruct z as [|p|p]; cbn [binary_normalize]; [done|..];
      apply Hround; lia. }
  destruct (binary_normalize _ _ z 0 false) as [s|s| |s m e]; eauto.
  by destruct (Hfin s).
Qed.

Lemma mul_zero_of_int z q :
  PyFloat.of_int z = Some q ->
  PyFloat.is_zero (PyFloat.mul PyFloat.zero q) = true.
Proof.
  intros [[s ->]|(s & m & e & ->)]%of_int_zero_or_finite; reflexivity.
Qed.

(** ** Identifiers and their string form *)

Example object_id_examples :
  ObjectId.to_string soup_id = "654a1b2c3d4e5f60718293a4"
  /\ ObjectId.of_string "654a1b2c3d4e5f60718293a4" = Some soup_id
  /\ ObjectId.of_string "654A1B2C3D4E5F60718293A4" = Some soup_id
  /\ ObjectId.is_valid "654a1b2c3d4e5f60718293a" = false
  /\ ObjectId.is_valid "654a1b2c3d4e5f60718293ag" = false
  /\ ObjectId.is_valid "water" = false.
Proof. repeat split; vm_compute; reflexivity. Qed.

(** Whitespace is skipped before and after a pair of digits and refused
    inside one, so a string of 24 characters may give fewer than 12
    bytes. *)
Example fromhex_examples :
  ObjectId.fromhex " 12" = Some [x12]
  /\ ObjectId.fromhex "12 " = Some [x12]
  /\ ObjectId.fromhex (String "009" (String "010" "aB")) = Some [xab]
  /\ ObjectId.fromhex "1 2" = None
  /\ ObjectId.fromhex "1" = None
  /\ ObjectId.fromhex "0x" = None
  /\ ObjectId.of_string blank_str = Some short_id
  /\ ObjectId.of_string "654a1b2c3d4e5f607182 93 " = Some short_id
  /\ ObjectId.of_string "654a1b2c3d4e5f6071829 3 " = None
  /\ ObjectId.of_string "                        " = Some [].
Proof. repeat split; vm_compute; reflexivity. Qed.

Lemma string_pair_ind (P : string -> Prop) :
  P EmptyString ->
  (forall a, P (String a EmptyString)) ->
  (forall a b s, P s -> P (String a (String b s))) ->
  forall s, P s.
Proof.
  intros H0 H1 H2. fix IH 1.
  intros [|a [|b s]]; [exact H0 | apply H1 | apply H2, IH].
Qed.

(** Induction along the recursion of [ObjectId.fromhex]. *)
Lemma fromhex_ind (P : string -> Prop) :
  P EmptyString ->
  (forall a s, ObjectId.is_space a = true -> P s -> P (String a s)) ->
  (forall a, ObjectId.is_space a = false -> P (String a EmptyString)) ->
  (forall a b s, ObjectId.is_space a = false -> P s ->
                 P (String a (String b s))) ->
  forall s, P s.
Proof.
  intros H0 Hsp H1 H2. fix IH 1. intros [|a s]; [exact H0|].
  destruct (ObjectId.is_space a) eqn:Ha.
  - apply Hsp; [exact Ha | apply IH].
  - destruct s as [|b s]; [apply H1; exact Ha | apply H2; [exact Ha|apply IH]].
Qed.

Lemma fromhex_space a s :
  ObjectId.is_space a = true ->
  ObjectId.fromhex (String a s) = ObjectId.fromhex s.
Proof. intros Ha. cbn [ObjectId.fromhex]. by rewrite Ha. Qed.

Lemma fromhex_pair a b s :
  ObjectId.is_space a = false ->
  ObjectId.fromhex (String a (String b s)) =
  match ObjectId.hex_value a, ObjectId.hex_value b, ObjectId.fromhex s with
  | Some hi, Some lo, Some bs => Some (ObjectId.byte_of_digits hi lo :: bs)
  | _, _, _ => None
  end.
Proof. intros Ha. cbn [ObjectId.fromhex]. by rewrite Ha. Qed.

(** No hexadecimal digit is whitespace. *)
Lemma hex_value_not_space a hi :
  ObjectId.hex_value a = Some hi -> ObjectId.is_space a = false.
Proof.
  destruct a as [[] [] [] [] [] [] [] []]; vm_compute;
    try discriminate; done.
Qed.

Lemma is_hex_not_space a :
  ObjectId.is_hex a = true -> ObjectId.is_space a = false.
Proof.
  unfold ObjectId.is_hex.
  destruct (ObjectId.hex_value a) as [hi|] eqn:Ha; [|discriminate].
  intros _. by apply (hex_value_not_space a hi).
Qed.

Lemma hex_byte_roundtrip (b : byte) :
  ObjectId.hex_value (ObjectId.hex_digit (Byte.to_N b / 16))
    = Some (Byte.to_N b / 16)%N /\
  ObjectId.hex_value (ObjectId.hex_digit (Byte.to_N b mod 16))
    = Some (Byte.to_N b mod 16)%N /\
  ObjectId.byte_of_digits (Byte.to_N b / 16) (Byte.to_N b mod 16) = b.
Proof. destruct b; vm_compute; auto. Qed.

Lemma fromhex_to_string (o : ObjectId.t) :
  ObjectId.fromhex (ObjectId.to_string o) = Some o.
Proof.
  induction o as [|b o IH]; [reflexivity|].
  cbn [ObjectId.to_string].
  destruct (hex_byte_roundtrip b) as (Hhi & Hlo & Hb).
  rewrite (fromhex_pair _ _ _ (hex_value_not_space _ _ Hhi)).
  by rewrite Hhi, Hlo, IH, Hb.
Qed.

Lemma length_to_string (o : ObjectId.t) :
  String.length (ObjectId.to_string o) = (2 * length o)%nat.
Proof.
  induction o as [|b o IH]; [reflexivity|].
  cbn [ObjectId.to_string String.length length]. rewrite IH. lia.
Qed.

(** [ObjectId(str(oid))] is [oid]. *)
Lemma of_string_to_string (o : ObjectId.t) :
  length o = 12%nat -> ObjectId.of_string (ObjectId.to_string o) = Some o.
Proof.
  intros Hlen. unfold ObjectId.of_string.
  rewrite length_to_string, Hlen. cbn [Nat.mul Nat.add Nat.eqb].
  apply fromhex_to_string.
Qed.

(** A string of hexadecimal digits, of even length, has one byte per pair
    of digits. *)
Lemma fromhex_hex (s : string) :
  Nat.even (String.length s) = true ->
  forallb ObjectId.is_hex (list_ascii_of_string s) = true ->
  exists o, ObjectId.fromhex s = Some o
            /\ String.length s = (2 * length o)%nat.
Proof.
  induction s as [|a|a b s IH] using string_pair_ind.
  - intros _ _. by exists [].
  - discriminate.
  - cbn [String.length Nat.even list_ascii_of_string forallb].
    intros Heven Hhex.
    apply andb_true_iff in Hhex as [Ha Hhex].
    apply andb_true_iff in Hhex as [Hb Hhex].
    destruct (IH Heven Hhex) as (o & Ho & Hlen).
    rewrite (fromhex_pair _ _ _ (is_hex_not_space a Ha)), Ho.
    unfold ObjectId.is_hex in Ha, Hb.
    destruct (ObjectId.hex_value a) as [hi|]; [|discriminate].
    destruct (ObjectId.hex_value b) as [lo|]; [|discriminate].
    eexists. split; [reflexivity|]. cbn [length]. lia.
Qed.

(** A 24-character hexadecimal string is the string of a 12-byte
    identifier. *)
Lemma well_formed_of_string (s : string) :
  well_formed s = true ->
  exists o, ObjectId.of_string s = Some o /\ length o = 12%nat.
Proof.
  unfold well_formed, ObjectId.of_string.
  intros [Hlen Hhex]%andb_true_iff. rewrite Hlen.
  apply Nat.eqb_eq in Hlen.
  destruct (fromhex_hex s) as (o & Ho & Hlo); [by rewrite Hlen | done |].
  exists o. split; [done | lia].
Qed.

Lemma well_formed_is_valid (s : string) :
  well_formed s = true -> ObjectId.is_valid s = true.
Proof.
  intros (o & Ho & _)%well_formed_of_string.
  unfold ObjectId.is_valid. by rewrite Ho.
Qed.

Lemma lookup_key_valid (s : string) :
  ObjectId.is_valid s = true ->
  exists o, ObjectId.of_string s = Some o /\ lookup_key s = VObjectId o.
Proof.
  unfold ObjectId.is_valid, lookup_key.
  destruct (ObjectId.of_string s) as [o|]; [|discriminate].
  intros _. by exists o.
Qed.

Lemma lookup_key_well_formed (s : string) :
  well_formed s = true ->
  exists o, ObjectId.of_string s = Some o /\ lookup_key s = VObjectId o.
Proof. intros Hwf. by apply lookup_key_valid, well_formed_is_valid. Qed.

Lemma lookup_key_malformed (s : string) :
  ObjectId.is_valid s = false -> lookup_key s = VStr s.
Proof.
  unfold ObjectId.is_valid, lookup_key.
  by destruct (ObjectId.of_string s).
Qed.

(** [bytes.fromhex] accepts the strings of pairs of hexadecimal digits
    with whitespace around the pairs. *)
Lemma fromhex_hex_pairs s :
  (exists o, ObjectId.fromhex s = Some o) <-> hex_pairs s.
Proof.
  split.
  - induction s as [|a s Ha IH|a Ha|a b s Ha IH] using fromhex_ind.
    + intros _. constructor.
    + rewrite (fromhex_space a s Ha). intros Ho.
      by apply hex_pairs_space; [|apply IH].
    + cbn [ObjectId.fromhex]. rewrite Ha. by intros [o [=]].
    + rewrite (fromhex_pair a b s Ha). intros [o Ho].
      destruct (ObjectId.hex_value a) as [hi|] eqn:Hva; [|discriminate].
      destruct (ObjectId.hex_value b) as [lo|] eqn:Hvb; [|discriminate].
      destruct (ObjectId.fromhex s) as [bs|]; [|discriminate].
      apply hex_pairs_pair; unfold ObjectId.is_hex; rewrite ?Hva, ?Hvb;
        [done | done |]. apply IH. by exists bs.
  - induction 1 as [|c s Hc _ [o Ho]|a b s Ha Hb _ [o Ho]].
    + by exists [].
    + exists o. by rewrite (fromhex_space c s Hc).
    + rewrite (fromhex_pair a b s (is_hex_not_space a Ha)), Ho.
      unfold ObjectId.is_hex in Ha, Hb.
      destruct (ObjectId.hex_value a) as [hi|]; [|discriminate].
      destruct (ObjectId.hex_value b) as [lo|]; [|discriminate].
      by eexists.
Qed.

(** The strings that [ObjectId.is_valid] accepts. *)
Lemma is_valid_hex_pairs s :
  ObjectId.is_valid s = true <-> String.length s = 24%nat /\ hex_pairs s.
Proof.
  rewrite <- fromhex_hex_pairs. unfold ObjectId.is_valid, ObjectId.of_string.
  destruct (String.length s =? 24)%nat eqn:Hlen.
  - apply Nat.eqb_eq in Hlen. split.
    + destruct (ObjectId.fromhex s) as [o|]; [|discriminate].
      intros _. split; [done | by exists o].
    + by intros [_ [o ->]].
  - apply Nat.eqb_neq in Hlen. split; [discriminate | by intros [? _]].
Qed.

(** ** The store and the lookup *)

Lemma db_inserted_same oid c data st :
  db (inserted oid c data st) c = db st c ++ [("_id", VObjectId oid) :: data].
Proof. unfold inserted, db. by rewrite lookup_insert_eq. Qed.

Lemma inserted_other oid c c' data (st : store) :
  c <> c' -> inserted oid c data st !! c' = st !! c'.
Proof. intros Hne. unfold inserted. by rewrite lookup_insert_ne. Qed.

(** A document that [find_one] returns has an [_id], so it is truthy. *)
Lemma find_one_nonempty coll key d :
  find_one coll key = Some d -> d <> [].
Proof.
  unfold find_one. intros Hf. apply List.find_some in Hf.
  destruct Hf as [_ Hid]. intros ->. discriminate Hid.
Qed.

Lemma find_by_id_eq c s st :
  find_by_id c s st = (Return (resolve st c s), st).
Proof.
  unfold find_by_id, resolve, lookup_key, ObjectId.is_valid, to_object_id.
  destruct (ObjectId.of_string s); reflexivity.
Qed.

(** ** Menu-item creation *)

Lemma create_menu_item_eq oid payload st :
  create_menu_item oid payload st =
  match resolve st "restaurant" (MenuItemIn.restaurant_id payload) with
  | Some _ =>
      (Return [("id", VStr (ObjectId.to_string oid))],
       inserted oid "menuitem" (MenuItemIn.model_dump payload) st)
  | None => (Raise (HTTPException 404 "Restaurant not found"), st)
  end.
Proof.
  unfold create_menu_item, bind. rewrite find_by_id_eq.
  destruct (resolve _ _ _) as [rest|] eqn:Hf; [|reflexivity].
  apply find_one_nonempty in Hf. by destruct rest.
Qed.

(** ** The loop of [place_order] *)

Lemma place_order_loop_cons item its total st :
  place_order_loop (item :: its) total st =
  match line_amount st item with
  | Return a => place_order_loop its (PyFloat.add total a) st
  | Raise e => (Raise e, st)
  end.
Proof.
  cbn [place_order_loop]. unfold bind at 1. rewrite find_by_id_eq.
  unfold line_amount.
  destruct (resolve _ _ _) as [mi|] eqn:Hf; [|reflexivity].
  apply find_one_nonempty in Hf. destruct mi as [|kv mi]; [done|].
  unfold bind, lift.
  destruct (float_ _) as [p|e]; [|reflexivity].
  destruct (float_mul_int p (OrderItemIn.quantity item)); reflexivity.
Qed.

Lemma place_order_loop_store its : forall total st,
  snd (place_order_loop its total st) = st.
Proof.
  induction its as [|item its IH]; intros total st; [reflexivity|].
  rewrite place_order_loop_cons.
  destruct (line_amount st item); [apply IH | reflexivity].
Qed.

Lemma priced_line_amount st item a :
  priced_line st item a <-> line_amount st item = Return a.
Proof.
  unfold priced_line, line_amount, float_mul_int. split.
  - intros (mi & p & q & -> & -> & -> & ->). reflexivity.
  - destruct (resolve _ _ _) as [mi|] eqn:Hf; [|discriminate].
    destruct (float_ _) as [p|] eqn:Hp; [|discriminate].
    destruct (PyFloat.of_int _) as [q|] eqn:Hq; [|discriminate].
    intros [= <-]. by exists mi, p, q.
Qed.

(** A line that resolves to a menu item with a numeric price is priced
    whenever its quantity has at most 64 bits. *)
Lemma priced_line_int64 st item mi p :
  resolve st "menuitem" (OrderItemIn.menu_item_id item) = Some mi ->
  float_ (get mi "price" (VInt 0)) = Return p ->
  - 2 ^ 63 <= OrderItemIn.quantity item < 2 ^ 63 ->
  exists a, priced_line st item a.
Proof.
  intros Hf Hp [q Hq]%of_int_int64.
  exists (PyFloat.mul p q). by exists mi, p, q.
Qed.

Lemma place_order_loop_amounts st its amounts :
  Forall2 (priced_line st) its amounts ->
  forall total,
    place_order_loop its total st =
    (Return (PyFloat.sum_from total amounts), st).
Proof.
  induction 1 as [|item a its amounts Ha _ IH]; intros total;
    [reflexivity|].
  rewrite place_order_loop_cons.
  apply priced_line_amount in Ha. rewrite Ha. apply IH.
Qed.

Lemma place_order_loop_unresolved st item post : forall pre total,
  resolve st "menuitem" (OrderItemIn.menu_item_id item) = None ->
  (exists e, place_order_loop (pre ++ item :: post) total st = (Raise e, st))
  /\ (Forall (fun i => exists a, priced_line st i a) pre ->
      place_order_loop (pre ++ item :: post) total st =
      (Raise (HTTPException 404
                ("Menu item not found: " +:+ OrderItemIn.menu_item_id item)),
       st)).
Proof.
  intros pre total Hnone.
  assert (Hitem : forall t, place_order_loop (item :: post) t st =
     (Raise (HTTPException 404
               ("Menu item not found: " +:+ OrderItemIn.menu_item_id item)),
      st)).
  { intros t. rewrite place_order_loop_cons. unfold line_amount.
    by rewrite Hnone. }
  revert total. induction pre as [|i pre IH]; intros total.
  - cbn [app]. rewrite Hitem. split; [by eexists | done].
  - cbn [app]. rewrite place_order_loop_cons.
    destruct (line_amount st i) as [a|e] eqn:Hi.
    + destruct (IH (PyFloat.add total a)) as [Hex Hnf].
      split; [exact Hex|]. intros Hpre. apply Hnf.
      by apply Forall_cons in Hpre as [_ Hpre].
    + split; [by eexists|]. intros Hpre.
      apply Forall_cons in Hpre as [[a Ha] _].
      apply priced_line_amount in Ha. congruence.
Qed.

Lemma float__raise v e :
  float_ v = Raise e -> e = TypeError \/ e = ValueError \/ e = OverflowError.
Proof.
  destruct v as [|b|z|f|s|o|l|d]; cbn [float_];
    try destruct (PyFloat.of_int z); try destruct (float_of_str s);
    intros [= <-]; auto.
Qed.

Lemma line_amount_raise st item e :
  line_amount st item = Raise e ->
  e = HTTPException 404
        ("Menu item not found: " +:+ OrderItemIn.menu_item_id item)
  \/ e = TypeError \/ e = ValueError \/ e = OverflowError.
Proof.
  unfold line_amount, float_mul_int.
  destruct (resolve _ _ _) as [mi|]; [|intros [= <-]; auto].
  destruct (float_ _) as [p|e'] eqn:Hp.
  - destruct (PyFloat.of_int _); intros [= <-]; auto.
  - intros [= <-]. right. by apply float__raise in Hp.
Qed.

Lemma place_order_loop_raise st e : forall its total st',
  place_order_loop its total st = (Raise e, st') ->
  exists item, In item its /\ line_amount st item = Raise e.
Proof.
  induction its as [|i its IH]; intros total st'; [discriminate|].
  rewrite place_order_loop_cons.
  destruct (line_amount st i) as [a|e'] eqn:Hi.
  - intros H. destruct (IH _ _ H) as (item & Hin & Hitem).
    exists item. split; [by right | done].
  - intros [= <- _]. exists i. split; [by left | done].
Qed.

Lemma line_amount_menu st1 st2 item :
  db st1 "menuitem" = db st2 "menuitem" ->
  line_amount st1 item = line_amount st2 item.
Proof. intros Hmenu. unfold line_amount, resolve. by rewrite Hmenu. Qed.

Lemma place_order_loop_menu st1 st2 its :
  db st1 "menuitem" = db st2 "menuitem" ->
  forall total,
    fst (place_order_loop its total st1)
    = fst (place_order_loop its total st2).
Proof.
  intros Hmenu. induction its as [|item its IH]; intros total;
    [reflexivity|].
  rewrite !place_order_loop_cons, (line_amount_menu st1 st2 item Hmenu).
  destruct (line_amount st2 item); [apply IH | reflexivity].
Qed.

(** ** [place_order] from its loop *)

Lemma place_order_eq oid payload st :
  place_order oid payload st =
  match place_order_loop (OrderIn.items payload) PyFloat.zero st with
  | (Return t, _) =>
      (Return (order_response oid (PyFloat.round t 2)),
       inserted oid "order" (order_doc payload t) st)
  | (Raise e, _) => (Raise e, st)
  end.
Proof.
  unfold place_order, bind.
  pose proof (place_order_loop_store (OrderIn.items payload) PyFloat.zero st)
    as Hst.
  destruct (place_order_loop _ _ _) as [[t|e] st']; simpl in Hst; subst st';
    reflexivity.
Qed.

Lemma place_order_raise oid payload st e st' :
  place_order oid payload st = (Raise e, st') ->
  st' = st
  /\ exists item,
       In item (OrderIn.items payload) /\ line_amount st item = Raise e.
Proof.
  rewrite place_order_eq.
  destruct (place_order_loop _ _ _) as [[t|e'] st''] eqn:Hloop;
    [discriminate|].
  intros [= <- <-]. split; [done|].
  by apply place_order_loop_raise in Hloop.
Qed.

Lemma place_order_not_400 oid payload st detail :
  fst (place_order oid payload st) <> Raise (HTTPException 400 detail).
Proof.
  destruct (place_order oid payload st) as [[r|e] st'] eqn:Hpo;
    [discriminate|].
  cbn [fst]. intros [= ->].
  apply place_order_raise in Hpo as (_ & item & _ & Hitem).
  apply line_amount_raise in Hitem as [H|[H|[H|H]]]; discriminate H.
Qed.

Lemma new_order_totals_inserted oid data st :
  new_order_totals st (inserted oid "order" data st)
  = [dict_lookup data "total"].
Proof.
  unfold new_order_totals.
  by rewrite db_inserted_same, drop_app_length.
Qed.

Lemma new_order_totals_same st : new_order_totals st st = [].
Proof. unfold new_order_totals. by rewrite drop_all. Qed.

(** ** Properties of menu-item creation *)

(** C6: when the restaurant_id of a menu-item creation request does not
    resolve to a stored restaurant, [create_menu_item] fails with the 404
    NotFound and the store is left as it was; when it resolves, exactly
    one document, the menu item under its generated identifier, is added
    to the menu-item collection, the identifier is returned, and every
    other collection is left as it was. *)
Theorem create_menu_item_effect oid payload st :
  (resolve st "restaurant" (MenuItemIn.restaurant_id payload) = None ->
   create_menu_item oid payload st =
     (Raise (HTTPException 404 "Restaurant not found"), st))
  /\ (resolve st "restaurant" (MenuItemIn.restaurant_id payload) <> None ->
      exists st',
        create_menu_item oid payload st =
          (Return [("id", VStr (ObjectId.to_string oid))], st')
        /\ db st' "menuitem" =
             db st "menuitem"
             ++ [("_id", VObjectId oid) :: MenuItemIn.model_dump payload]
        /\ forall c, c <> "menuitem" -> st' !! c = st !! c).
Proof.
  rewrite create_menu_item_eq.
  destruct (resolve _ _ _) as [rest|]; split; try done.
  intros _. eexists. split; [reflexivity|]. split.
  - apply db_inserted_same.
  - intros c Hc. by apply inserted_other.
Qed.

(** ** Properties of order placement *)

(** C1 (amended): for every order request whose lines all resolve to
    stored menu items, with a stored price (0 when the document has none)
    and a quantity that convert to floats, [place_order] computes the
    total as the float sum over the lines, in order, of the stored price
    times the quantity, rounded to 2 decimals; it returns this total and
    persists it in the order document. *)
Theorem place_order_total oid payload st amounts :
  Forall2 (priced_line st) (OrderIn.items payload) amounts ->
  place_order oid payload st =
    (Return (order_response oid (rounded_total amounts)),
     inserted oid "order"
       (order_doc payload (PyFloat.sum_from PyFloat.zero amounts)) st)
  /\ dict_lookup
       (order_doc payload (PyFloat.sum_from PyFloat.zero amounts)) "total"
     = Some (VFloat (rounded_total amounts)).
Proof.
  intros Hlines. split; [|reflexivity].
  rewrite place_order_eq.
  by rewrite (place_order_loop_amounts st _ _ Hlines).
Qed.

(** C2 (amended): for every order request with a line whose menu item
    identifier does not resolve, [place_order] fails and leaves the store
    as it was; when every line before that one resolves to a menu item
    with a price and a quantity that convert to floats, the failure is
    the 404 NotFound that names the identifier. *)
Theorem place_order_unresolved_line oid payload st pre item post :
  OrderIn.items payload = pre ++ item :: post ->
  resolve st "menuitem" (OrderItemIn.menu_item_id item) = None ->
  (exists e, place_order oid payload st = (Raise e, st))
  /\ (Forall (fun i => exists a, priced_line st i a) pre ->
      place_order oid payload st =
      (Raise (HTTPException 404
                ("Menu item not found: " +:+ OrderItemIn.menu_item_id item)),
       st)).
Proof.
  intros Hitems Hnone. rewrite place_order_eq, Hitems.
  destruct (place_order_loop_unresolved st item post pre PyFloat.zero Hnone)
    as [[e He] Hnf].
  split.
  - exists e. by rewrite He.
  - intros Hpre. by rewrite (Hnf Hpre).
Qed.

(** C3 (amended): [place_order] does not check the number of lines: a
    request with an empty line list is accepted, and an order with total
    0.0 and status "placed" is persisted and returned. *)
Theorem place_order_empty_lines oid payload st :
  OrderIn.items payload = [] ->
  place_order oid payload st =
    (Return (order_response oid PyFloat.zero),
     inserted oid "order" (order_doc payload PyFloat.zero) st)
  /\ dict_lookup (order_doc payload PyFloat.zero) "total"
     = Some (VFloat PyFloat.zero)
  /\ dict_lookup (order_doc payload PyFloat.zero) "status"
     = Some (VStr "placed").
Proof.
  intros Hitems. split; [|split; reflexivity].
  rewrite place_order_eq, Hitems. reflexivity.
Qed.

(** C4 (amended): for every malformed identifier string, one that
    [ObjectId.is_valid] rejects, neither [create_menu_item] nor
    [place_order] surfaces a 400 error: the raw string is the lookup key,
    and when no document has it as identifier the failure is the same 404
    NotFound as for a well-formed identifier (for [place_order], when the
    lines before it are priced). *)
Theorem malformed_identifier_not_found oid st s :
  ObjectId.is_valid s = false ->
  (forall c, find_by_id c s st = (Return (find_one (db st c) (VStr s)), st))
  /\ (forall payload, MenuItemIn.restaurant_id payload = s ->
     (forall detail,
        fst (create_menu_item oid payload st)
        <> Raise (HTTPException 400 detail))
     /\ (find_one (db st "restaurant") (VStr s) = None ->
         create_menu_item oid payload st =
           (Raise (HTTPException 404 "Restaurant not found"), st)))
  /\ (forall payload pre item post,
       OrderIn.items payload = pre ++ item :: post ->
       OrderItemIn.menu_item_id item = s ->
       (forall detail,
          fst (place_order oid payload st)
          <> Raise (HTTPException 400 detail))
       /\ (find_one (db st "menuitem") (VStr s) = None ->
           Forall (fun i => exists a, priced_line st i a) pre ->
           place_order oid payload st =
             (Raise (HTTPException 404 ("Menu item not found: " +:+ s)),
              st))).
Proof.
  intros Hs. apply lookup_key_malformed in Hs. split; [|split].
  - intros c. rewrite find_by_id_eq. unfold resolve. by rewrite Hs.
  - intros payload <-. rewrite create_menu_item_eq.
    unfold resolve. rewrite Hs. split.
    + intros detail. by destruct (find_one _ _).
    + by intros ->.
  - intros payload pre item post Hitems <-. split.
    + intros detail. apply place_order_not_400.
    + intros Hnone Hpre. rewrite <- Hs in Hnone.
      rewrite place_order_eq, Hitems.
      destruct (place_order_loop_unresolved st item post pre PyFloat.zero
                  Hnone) as [_ Hnf].
      by rewrite (Hnf Hpre).
Qed.

(** C5 (amended): for every identifier string, the lookup that
    [create_menu_item] and [place_order] run queries with the ObjectId
    form of the string when [ObjectId.is_valid] accepts the string, and
    with the raw string otherwise. The accepted strings are those of 24
    characters made of pairs of hexadecimal digits with ASCII whitespace
    around the pairs: every 24-character hexadecimal string, and strings
    with blanks as well. A document stored under a 12-byte native
    identifier is found from the identifier's string form, and a document
    stored under a string that [ObjectId.is_valid] rejects is found from
    that string. *)
Theorem find_by_id_key c s st :
  find_by_id c s st = (Return (find_one (db st c) (lookup_key s)), st)
  /\ (ObjectId.is_valid s = true <-> String.length s = 24%nat /\ hex_pairs s)
  /\ (well_formed s = true -> ObjectId.is_valid s = true)
  /\ (ObjectId.is_valid s = true ->
      exists o, ObjectId.of_string s = Some o /\ lookup_key s = VObjectId o)
  /\ (ObjectId.is_valid s = false -> lookup_key s = VStr s)
  /\ (forall o d, length o = 12%nat ->
      find_one (db st c) (VObjectId o) = Some d ->
      find_by_id c (ObjectId.to_string o) st = (Return (Some d), st))
  /\ (forall d, ObjectId.is_valid s = false ->
      find_one (db st c) (VStr s) = Some d ->
      find_by_id c s st = (Return (Some d), st))
  /\ (forall oid payload, MenuItemIn.restaurant_id payload = s ->
      create_menu_item oid payload st =
      match find_one (db st "restaurant") (lookup_key s) with
      | Some _ =>
          (Return [("id", VStr (ObjectId.to_string oid))],
           inserted oid "menuitem" (MenuItemIn.model_dump payload) st)
      | None => (Raise (HTTPException 404 "Restaurant not found"), st)
      end)
  /\ (forall item its total, OrderItemIn.menu_item_id item = s ->
      place_order_loop (item :: its) total st =
      match find_one (db st "menuitem") (lookup_key s) with
      | Some mi =>
          match float_ (get mi "price" (VInt 0)) with
          | Return p =>
              match float_mul_int p (OrderItemIn.quantity item) with
              | Return a => place_order_loop its (PyFloat.add total a) st
              | Raise e => (Raise e, st)
              end
          | Raise e => (Raise e, st)
          end
      | None =>
          (Raise (HTTPException 404 ("Menu item not found: " +:+ s)), st)
      end).
Proof.
  split; [apply find_by_id_eq|].
  split; [apply is_valid_hex_pairs|].
  split; [apply well_formed_is_valid|].
  split; [apply lookup_key_valid|].
  split; [apply lookup_key_malformed|].
  split; [|split; [|split]].
  - intros o d Hlen Hd. rewrite find_by_id_eq. unfold resolve, lookup_key.
    by rewrite (of_string_to_string o Hlen), Hd.
  - intros d Hs Hd. rewrite find_by_id_eq. unfold resolve.
    by rewrite (lookup_key_malformed s Hs), Hd.
  - intros oid payload <-. apply create_menu_item_eq.
  - intros item its total <-. rewrite place_order_loop_cons.
    unfold line_amount, resolve.
    destruct (find_one _ _) as [mi|]; [|reflexivity].
    by destruct (float_ _).
Qed.

(** C7: when [place_order] succeeds, exactly one document is added to
    the order collection; it carries the generated identifier, the
    customer name, the address, the restaurant_id and the lines of the
    request in order, the computed total and the status "placed"; the
    response holds the generated identifier, that total and that status;
    and every other collection is left as it was. *)
Theorem place_order_success_effect oid payload st r st' :
  place_order oid payload st = (Return r, st') ->
  exists (total : float) (doc : document),
    r = [("id", VStr (ObjectId.to_string oid));
         ("total", VFloat total);
         ("status", VStr "placed")]
    /\ db st' "order" = db st "order" ++ [doc]
    /\ dict_lookup doc "_id" = Some (VObjectId oid)
    /\ dict_lookup doc "customer_name"
       = Some (VStr (OrderIn.customer_name payload))
    /\ dict_lookup doc "address" = Some (VStr (OrderIn.address payload))
    /\ dict_lookup doc "restaurant_id"
       = Some (VStr (OrderIn.restaurant_id payload))
    /\ dict_lookup doc "items" =
         Some (VList
                 (map (fun i =>
                         VDict [("menu_item_id",
                                 VStr (OrderItemIn.menu_item_id i));
                                ("quantity", VInt (OrderItemIn.quantity i))])
                      (OrderIn.items payload)))
    /\ dict_lookup doc "total" = Some (VFloat total)
    /\ dict_lookup doc "status" = Some (VStr "placed")
    /\ forall c, c <> "order" -> st' !! c = st !! c.
Proof.
  rewrite place_order_eq.
  destruct (place_order_loop _ _ _) as [[t|e] st''];
    [|discriminate].
  intros [= <- <-].
  exists (PyFloat.round t 2), (("_id", VObjectId oid) :: order_doc payload t).
  split; [reflexivity|].
  split; [apply db_inserted_same|].
  do 7 (split; [reflexivity|]).
  intros c Hc. by apply inserted_other.
Qed.

(** C8: the total that [place_order] computes, returns and persists
    depends on the stored menu items and on the lines of the request
    (menu item identifiers and quantities) only: two requests with the
    same lines, on stores with the same menu items, get the same total
    in the response, or the same failure, and the same total in the
    persisted order, whatever their other fields are; the request
    schemas [OrderIn] and [OrderItemIn] have no price or total field. *)
Theorem place_order_total_noninterference oid1 oid2 p1 p2 st1 st2 :
  db st1 "menuitem" = db st2 "menuitem" ->
  OrderIn.items p1 = OrderIn.items p2 ->
  total_of (fst (place_order oid1 p1 st1))
  = total_of (fst (place_order oid2 p2 st2))
  /\ new_order_totals st1 (snd (place_order oid1 p1 st1))
     = new_order_totals st2 (snd (place_order oid2 p2 st2)).
Proof.
  intros Hmenu Hitems. rewrite !place_order_eq, Hitems.
  pose proof (place_order_loop_menu st1 st2 (OrderIn.items p2) Hmenu
                PyFloat.zero) as Hloop.
  destruct (place_order_loop (OrderIn.items p2) PyFloat.zero st1)
    as [[t1|e1] s1],
    (place_order_loop (OrderIn.items p2) PyFloat.zero st2)
    as [[t2|e2] s2];
    cbn [fst] in Hloop; try discriminate Hloop.
  - injection Hloop as ->. cbn [fst snd].
    by rewrite !new_order_totals_inserted.
  - injection Hloop as ->. cbn [fst snd].
    by rewrite !new_order_totals_same.
Qed.

(** C9: a line of quantity 3 that resolves to a stored menu item of
    price 9.99 contributes 29.97 to the total, and an order of two such
    lines gets the total 59.94, returned and persisted. *)
Theorem place_order_example_total oid payload st i1 i2 m1 m2 :
  OrderIn.items payload = [i1; i2] ->
  OrderItemIn.quantity i1 = 3 -> OrderItemIn.quantity i2 = 3 ->
  resolve st "menuitem" (OrderItemIn.menu_item_id i1) = Some m1 ->
  resolve st "menuitem" (OrderItemIn.menu_item_id i2) = Some m2 ->
  dict_lookup m1 "price" = Some (VFloat (PyFloat.decimal 999 2)) ->
  dict_lookup m2 "price" = Some (VFloat (PyFloat.decimal 999 2)) ->
  line_amount st i1 = Return (PyFloat.decimal 2997 2)
  /\ line_amount st i2 = Return (PyFloat.decimal 2997 2)
  /\ place_order oid payload st =
       (Return (order_response oid (PyFloat.decimal 5994 2)),
        inserted oid "order"
          (order_doc payload
             (PyFloat.sum_from PyFloat.zero
                [PyFloat.decimal 2997 2; PyFloat.decimal 2997 2])) st)
  /\ dict_lookup
       (order_doc payload
          (PyFloat.sum_from PyFloat.zero
             [PyFloat.decimal 2997 2; PyFloat.decimal 2997 2])) "total"
     = Some (VFloat (PyFloat.decimal 5994 2)).
Proof.
  intros Hitems Hq1 Hq2 Hf1 Hf2 Hp1 Hp2.
  assert (H1 : line_amount st i1 = Return (PyFloat.decimal 2997 2)).
  { unfold line_amount, get. rewrite Hf1, Hp1, Hq1. by vm_compute. }
  assert (H2 : line_amount st i2 = Return (PyFloat.decimal 2997 2)).
  { unfold line_amount, get. rewrite Hf2, Hp2, Hq2. by vm_compute. }
  split; [done|]. split; [done|]. split; [|by vm_compute].
  rewrite place_order_eq, Hitems.
  rewrite place_order_loop_cons, H1, place_order_loop_cons, H2.
  cbn [place_order_loop ret].
  replace (PyFloat.round _ 2) with (PyFloat.decimal 5994 2)
    by (by vm_compute).
  reflexivity.
Qed.

(** C10 (amended): a line that resolves to a stored document without a
    price field, and whose quantity converts to a float, does not make
    [place_order] fail: the missing price is read as 0, the line
    contributes 0.0 times the quantity, a zero, to the total, and when
    the other lines of the request are priced the order is persisted
    and returned. *)
Theorem place_order_missing_price st item mi q :
  resolve st "menuitem" (OrderItemIn.menu_item_id item) = Some mi ->
  dict_lookup mi "price" = None ->
  PyFloat.of_int (OrderItemIn.quantity item) = Some q ->
  float_ (get mi "price" (VInt 0)) = Return PyFloat.zero
  /\ line_amount st item = Return (PyFloat.mul PyFloat.zero q)
  /\ PyFloat.is_zero (PyFloat.mul PyFloat.zero q) = true
  /\ (forall oid payload pre post before after,
       OrderIn.items payload = pre ++ item :: post ->
       Forall2 (priced_line st) pre before ->
       Forall2 (priced_line st) post after ->
       let amounts := before ++ PyFloat.mul PyFloat.zero q :: after in
       place_order oid payload st =
         (Return (order_response oid (rounded_total amounts)),
          inserted oid "order"
            (order_doc payload (PyFloat.sum_from PyFloat.zero amounts))
            st)).
Proof.
  intros Hf Hprice Hq.
  assert (Hzero : float_ (get mi "price" (VInt 0)) = Return PyFloat.zero).
  { unfold get. by rewrite Hprice. }
  assert (Hline : line_amount st item = Return (PyFloat.mul PyFloat.zero q)).
  { unfold line_amount, float_mul_int. by rewrite Hf, Hzero, Hq. }
  split; [done|]. split; [done|].
  split; [by apply (mul_zero_of_int (OrderItemIn.quantity item))|].
  intros oid payload pre post before after Hitems Hpre Hpost amounts.
  rewrite place_order_eq, Hitems.
  rewrite (place_order_loop_amounts st (pre ++ item :: post) amounts);
    [reflexivity|].
  apply Forall2_app; [done|].
  constructor; [by apply priced_line_amount | done].
Qed.

(** * Further properties *)

(** ** Identifier strings *)

Lemma hex_value_lower a hi :
  ObjectId.hex_value a = Some hi ->
  (hi < 16)%N /\ ObjectId.hex_digit hi = lower a
  /\ ObjectId.hex_value (lower a) = Some hi.
Proof.
  destruct a as [[] [] [] [] [] [] [] []]; vm_compute;
    try discriminate; intros [= <-]; done.
Qed.

Lemma hex_value_lower_none a :
  ObjectId.hex_value a = None -> ObjectId.hex_value (lower a) = None.
Proof.
  destruct a as [[] [] [] [] [] [] [] []]; vm_compute;
    try discriminate; done.
Qed.

Lemma to_N_byte_of_digits hi lo :
  (hi < 16)%N -> (lo < 16)%N ->
  Byte.to_N (ObjectId.byte_of_digits hi lo) = (16 * hi + lo)%N.
Proof.
  intros Hhi Hlo. unfold ObjectId.byte_of_digits.
  pose proof (Byte.to_of_N_option_map (16 * hi + lo)) as H.
  destruct (Byte.of_N (16 * hi + lo)) as [b|]; cbn [option_map] in H.
  - destruct (N.leb_spec (16 * hi + lo) 255); congruence.
  - destruct (N.leb_spec (16 * hi + lo) 255); [discriminate | lia].
Qed.

Lemma lower_space a : ObjectId.is_space (lower a) = ObjectId.is_space a.
Proof. destruct a as [[] [] [] [] [] [] [] []]; vm_compute; done. Qed.

Lemma hex_value_lower_eq a :
  ObjectId.hex_value (lower a) = ObjectId.hex_value a.
Proof.
  destruct (ObjectId.hex_value a) as [hi|] eqn:Ha.
  - by apply hex_value_lower in Ha as (_ & _ & ->).
  - by apply hex_value_lower_none.
Qed.

Lemma length_without_spaces s :
  (String.length (without_spaces s) <= String.length s)%nat.
Proof.
  induction s as [|c s IH]; [done|]. cbn [without_spaces].
  destruct (ObjectId.is_space c); cbn [String.length]; lia.
Qed.

Lemma without_spaces_same_length s :
  String.length (without_spaces s) = String.length s ->
  without_spaces s = s.
Proof.
  induction s as [|c s IH]; [done|]. cbn [without_spaces].
  pose proof (length_without_spaces s) as Hle.
  destruct (ObjectId.is_space c); cbn [String.length]; intros Hlen;
    [lia|]. f_equal. apply IH. lia.
Qed.

Lemma without_spaces_hex s :
  forallb ObjectId.is_hex (list_ascii_of_string s) = true ->
  without_spaces s = s.
Proof.
  induction s as [|c s IH]; [done|].
  cbn [list_ascii_of_string forallb without_spaces].
  intros [Hc Hs]%andb_true_iff.
  by rewrite (is_hex_not_space c Hc), (IH Hs).
Qed.

(** The bytes of a string that [bytes.fromhex] accepts are those of its
    hexadecimal digits: their string is the string without its whitespace,
    in lower case. *)
Lemma fromhex_lower s : forall o,
  ObjectId.fromhex s = Some o ->
  ObjectId.to_string o = lower_str (without_spaces s)
  /\ String.length (without_spaces s) = (2 * length o)%nat
  /\ forallb ObjectId.is_hex (list_ascii_of_string (without_spaces s)) = true.
Proof.
  induction s as [|a s Ha IH|a Ha|a b s Ha IH] using fromhex_ind; intros o.
  - intros [= <-]. done.
  - rewrite (fromhex_space a s Ha). cbn [without_spaces]. rewrite Ha.
    apply IH.
  - cbn [ObjectId.fromhex]. by rewrite Ha.
  - rewrite (fromhex_pair a b s Ha).
    destruct (ObjectId.hex_value a) as [hi|] eqn:Hva; [|discriminate].
    destruct (ObjectId.hex_value b) as [lo|] eqn:Hvb; [|discriminate].
    destruct (ObjectId.fromhex s) as [bs|]; [|discriminate].
    intros [= <-]. destruct (IH bs eq_refl) as (Hstr & Hlen & Hhex).
    cbn [without_spaces].
    rewrite Ha, (hex_value_not_space b lo Hvb).
    cbn [ObjectId.to_string lower_str String.length length
         list_ascii_of_string forallb].
    unfold ObjectId.is_hex at 1 2. rewrite Hva, Hvb.
    apply hex_value_lower in Hva as (Hhi & Hla & _).
    apply hex_value_lower in Hvb as (Hlo & Hlb & _).
    rewrite (to_N_byte_of_digits hi lo Hhi Hlo), Hstr, Hlen.
    replace ((16 * hi + lo) / 16)%N with hi
      by (apply (N.div_unique _ _ _ lo); lia).
    replace ((16 * hi + lo) mod 16)%N with lo
      by (apply (N.mod_unique _ _ hi); lia).
    rewrite Hla, Hlb. split; [done|]. split; [lia | done].
Qed.

(** The identifier of a valid string has at most 12 bytes, and 12 when
    the string is a 24-character hexadecimal string, and only then. *)
Lemma of_string_length s o :
  ObjectId.of_string s = Some o ->
  ObjectId.to_string o = lower_str (without_spaces s)
  /\ (length o <= 12)%nat
  /\ (length o = 12%nat <-> well_formed s = true).
Proof.
  unfold ObjectId.of_string.
  destruct (String.length s =? 24)%nat eqn:Hlen; [|discriminate].
  apply Nat.eqb_eq in Hlen. intros Ho.
  destruct (fromhex_lower s o Ho) as (Hstr & Hlo & Hhex).
  pose proof (length_without_spaces s) as Hle.
  split; [done|]. split; [lia|]. split.
  - intros H12. unfold well_formed.
    rewrite <- (without_spaces_same_length s) at 2 by lia.
    rewrite Hhex, Hlen. done.
  - intros (o' & Ho' & H12)%well_formed_of_string.
    unfold ObjectId.of_string in Ho'. rewrite Hlen in Ho'. simpl in Ho'.
    congruence.
Qed.

Lemma length_lower_str s : String.length (lower_str s) = String.length s.
Proof. induction s as [|c s IH]; [done|]. cbn. by rewrite IH. Qed.

Lemma fromhex_lower_str s :
  ObjectId.fromhex (lower_str s) = ObjectId.fromhex s.
Proof.
  induction s as [|a s Ha IH|a Ha|a b s Ha IH] using fromhex_ind.
  - done.
  - cbn [lower_str]. rewrite !fromhex_space; [done | done |].
    by rewrite lower_space.
  - cbn [lower_str ObjectId.fromhex]. by rewrite lower_space, Ha.
  - cbn [lower_str]. rewrite !fromhex_pair; [| done |].
    + by rewrite !hex_value_lower_eq, IH.
    + by rewrite lower_space.
Qed.

Lemma of_string_lower_str s :
  ObjectId.of_string (lower_str s) = ObjectId.of_string s.
Proof.
  unfold ObjectId.of_string.
  by rewrite length_lower_str, fromhex_lower_str.
Qed.

Lemma ObjectId_eqb_eq (a b : ObjectId.t) :
  ObjectId.eqb a b = true <-> a = b.
Proof.
  revert b. induction a as [|x a IH]; intros [|y b]; cbn [ObjectId.eqb];
    try (split; [discriminate | intros [=]]); [done|].
  rewrite andb_true_iff, IH. split.
  - intros [Hxy ->]. by rewrite (Byte.byte_dec_bl x y Hxy).
  - intros [= -> ->]. split; [by apply Byte.byte_dec_lb | done].
Qed.

(** X1: [to_object_id] gives an identifier exactly for the strings that
    [ObjectId.is_valid] accepts, which are the strings of 24 characters
    made of pairs of hexadecimal digits with ASCII whitespace around the
    pairs; on every other string it raises the 400 error "Invalid ID
    format". The identifier has at most 12 bytes, and 12 exactly when the
    string is a 24-character hexadecimal string. *)
Theorem to_object_id_well_formed s :
  (ObjectId.is_valid s = true <-> String.length s = 24%nat /\ hex_pairs s)
  /\ (ObjectId.is_valid s = true ->
      exists o, to_object_id s = Return o
                /\ (length o <= 12)%nat
                /\ (length o = 12%nat <-> well_formed s = true))
  /\ (ObjectId.is_valid s = false ->
      to_object_id s = Raise (HTTPException 400 "Invalid ID format"))
  /\ (well_formed s = true ->
      exists o, to_object_id s = Return o /\ length o = 12%nat).
Proof.
  split; [apply is_valid_hex_pairs|].
  unfold ObjectId.is_valid, to_object_id. split; [|split].
  - destruct (ObjectId.of_string s) as [o|] eqn:Ho; [|discriminate].
    intros _. exists o. split; [done|].
    by destruct (of_string_length s o Ho) as (_ & Hle & H12).
  - by destruct (ObjectId.of_string s).
  - intros (o & -> & Hlen)%well_formed_of_string. by exists o.
Qed.

(** X2: the identifier of a string and the string of an identifier are
    inverse up to case and whitespace: [to_object_id(str(o))] is [o] for
    every 12-byte identifier; when [to_object_id(s)] is [o], [str(o)] is
    [s] without its whitespace, in lower case, which for a 24-character
    hexadecimal string is [s] in lower case. *)
Theorem to_object_id_round_trip :
  (forall o, length o = 12%nat ->
     to_object_id (ObjectId.to_string o) = Return o)
  /\ (forall s o, to_object_id s = Return o ->
        ObjectId.to_string o = lower_str (without_spaces s))
  /\ (forall s o, well_formed s = true -> to_object_id s = Return o ->
        ObjectId.to_string o = lower_str s).
Proof.
  assert (H : forall s o, to_object_id s = Return o ->
                ObjectId.to_string o = lower_str (without_spaces s)).
  { intros s o. unfold to_object_id.
    destruct (ObjectId.of_string s) as [o'|] eqn:Ho; [|discriminate].
    intros [= <-]. by apply of_string_length in Ho as [Ho _]. }
  split; [|split; [exact H|]].
  - intros o Hlen. unfold to_object_id.
    by rewrite (of_string_to_string o Hlen).
  - intros s o [_ Hhex]%andb_true_iff Ho.
    by rewrite (H s o Ho), (without_spaces_hex s Hhex).
Qed.

(** X3: the lookup of [create_menu_item] and [place_order] does not
    depend on the case of a well-formed identifier string: two strings
    that are equal in lower case, one of them well-formed, give the same
    result. *)
Theorem find_by_id_case_insensitive c s1 s2 st :
  well_formed s1 = true ->
  lower_str s1 = lower_str s2 ->
  find_by_id c s1 st = find_by_id c s2 st.
Proof.
  intros Hwf Hlow. rewrite !find_by_id_eq. unfold resolve.
  destruct (lookup_key_well_formed s1 Hwf) as (o & Ho & Hkey).
  rewrite Hkey. unfold lookup_key.
  by rewrite <- (of_string_lower_str s2), <- Hlow, of_string_lower_str, Ho.
Qed.

(** X4: a document that the lookup returns is a document of the
    collection, and its [_id] is the key of the identifier string: the
    ObjectId of a string that [ObjectId.is_valid] accepts, never a string
    (the 12-byte ObjectId of a 24-character hexadecimal string), and the
    string itself otherwise. *)
Theorem find_by_id_sound c s st d st' :
  find_by_id c s st = (Return (Some d), st') ->
  st' = st /\ In d (db st c)
  /\ dict_lookup d "_id" = Some (lookup_key s)
  /\ (ObjectId.is_valid s = true ->
      exists o, ObjectId.of_string s = Some o
                /\ dict_lookup d "_id" = Some (VObjectId o))
  /\ (well_formed s = true ->
      exists o, ObjectId.of_string s = Some o /\ length o = 12%nat
                /\ dict_lookup d "_id" = Some (VObjectId o))
  /\ (ObjectId.is_valid s = false -> dict_lookup d "_id" = Some (VStr s)).
Proof.
  rewrite find_by_id_eq. intros [= Hres <-]. split; [done|].
  unfold resolve, find_one in Hres. apply List.find_some in Hres.
  destruct Hres as [Hin Hid]. split; [done|].
  assert (Hkey : dict_lookup d "_id" = Some (lookup_key s)).
  { unfold has_id in Hid.
    destruct (dict_lookup d "_id") as [v|]; [|discriminate].
    unfold lookup_key in *.
    destruct (ObjectId.of_string s) as [o|]; destruct v; try discriminate;
      cbn [id_matches] in Hid.
    - by apply ObjectId_eqb_eq in Hid as ->.
    - by apply String.eqb_eq in Hid as ->. }
  split; [done|]. split; [|split].
  - intros Hv. destruct (lookup_key_valid s Hv) as (o & Ho & Hk).
    exists o. by rewrite Hkey, Hk.
  - intros Hwf. destruct (well_formed_of_string s Hwf) as (o & Ho & Hlen).
    exists o. rewrite Hkey. unfold lookup_key. by rewrite Ho.
  - intros Hv. by rewrite Hkey, (lookup_key_malformed s Hv).
Qed.

(** ** Insertion and lookup *)

Lemma find_one_app coll coll' key :
  find_one (coll ++ coll') key =
  match find_one coll key with
  | Some d => Some d
  | None => find_one coll' key
  end.
Proof.
  unfold find_one. induction coll as [|d coll IH]; [done|].
  cbn [app List.find]. by destruct (has_id key d).
Qed.

Lemma has_id_inserted oid data :
  has_id (VObjectId oid) (("_id", VObjectId oid) :: data) = true.
Proof. cbn. by apply ObjectId_eqb_eq. Qed.

Lemma db_inserted oid c c' data st :
  db (inserted oid c data st) c' =
  if String.eqb c c' then db st c ++ [("_id", VObjectId oid) :: data]
  else db st c'.
Proof.
  destruct (String.eqb_spec c c') as [<-|Hne].
  - apply db_inserted_same.
  - unfold db. by rewrite inserted_other.
Qed.

(** A document that resolves still resolves, to itself, after an
    insertion. *)
Lemma resolve_inserted_some oid c c' data st s d :
  resolve st c' s = Some d ->
  resolve (inserted oid c data st) c' s = Some d.
Proof.
  unfold resolve. intros Hd. rewrite db_inserted.
  destruct (String.eqb c c') eqn:Hc; [|done].
  apply String.eqb_eq in Hc as ->. by rewrite find_one_app, Hd.
Qed.

(** A fresh identifier resolves, from its string, to the document that
    was inserted under it. *)
Lemma resolve_inserted_new oid c data st :
  length oid = 12%nat ->
  find_one (db st c) (VObjectId oid) = None ->
  resolve (inserted oid c data st) c (ObjectId.to_string oid)
  = Some (("_id", VObjectId oid) :: data).
Proof.
  intros Hlen Hfresh. unfold resolve, lookup_key.
  rewrite (of_string_to_string oid Hlen), db_inserted_same, find_one_app.
  rewrite Hfresh. unfold find_one. cbn [List.find].
  by rewrite has_id_inserted.
Qed.

Lemma resolve_inserted_defined oid c data st :
  length oid = 12%nat ->
  resolve (inserted oid c data st) c (ObjectId.to_string oid) <> None.
Proof.
  intros Hlen.
  destruct (find_one (db st c) (VObjectId oid)) as [d|] eqn:Hd.
  - assert (Hres : resolve st c (ObjectId.to_string oid) = Some d).
    { unfold resolve, lookup_key. by rewrite (of_string_to_string oid Hlen). }
    by rewrite (resolve_inserted_some oid c c data st _ d Hres).
  - by rewrite (resolve_inserted_new oid c data st Hlen Hd).
Qed.

Lemma create_restaurant_eq oid payload st :
  create_restaurant oid payload st =
  (Return [("id", VStr (ObjectId.to_string oid))],
   inserted oid "restaurant" (RestaurantIn.model_dump payload) st).
Proof. reflexivity. Qed.

(** X5: [create_restaurant] always succeeds and adds exactly one
    document, the restaurant under its generated identifier, leaving the
    other collections as they were; the identifier it returns is then
    accepted by [create_menu_item] as restaurant_id. *)
Theorem create_restaurant_then_menu_item oid payload st :
  length oid = 12%nat ->
  exists rid st',
    create_restaurant oid payload st = (Return [("id", VStr rid)], st')
    /\ db st' "restaurant" =
         db st "restaurant"
         ++ [("_id", VObjectId oid) :: RestaurantIn.model_dump payload]
    /\ (forall c, c <> "restaurant" -> st' !! c = st !! c)
    /\ forall oid' item, MenuItemIn.restaurant_id item = rid ->
         create_menu_item oid' item st' =
           (Return [("id", VStr (ObjectId.to_string oid'))],
            inserted oid' "menuitem" (MenuItemIn.model_dump item) st').
Proof.
  intros Hlen. eexists _, _. split; [apply create_restaurant_eq|].
  split; [apply db_inserted_same|].
  split; [intros c Hc; by apply inserted_other|].
  intros oid' item Hrid. rewrite create_menu_item_eq, Hrid.
  pose proof (resolve_inserted_defined oid "restaurant"
                (RestaurantIn.model_dump payload) st Hlen) as Hres.
  by destruct (resolve _ _ _).
Qed.

(** X6: a menu item created by [create_menu_item] under a fresh
    identifier is the one that the returned identifier resolves to in
    [place_order]: a line with that identifier contributes the price
    given at creation times the quantity, and an order of that one line
    gets this amount, rounded to 2 decimals, as total. *)
Theorem create_menu_item_then_order oid payload st line q :
  length oid = 12%nat ->
  resolve st "restaurant" (MenuItemIn.restaurant_id payload) <> None ->
  find_one (db st "menuitem") (VObjectId oid) = None ->
  OrderItemIn.menu_item_id line = ObjectId.to_string oid ->
  PyFloat.of_int (OrderItemIn.quantity line) = Some q ->
  exists st',
    create_menu_item oid payload st =
      (Return [("id", VStr (ObjectId.to_string oid))], st')
    /\ line_amount st' line
       = Return (PyFloat.mul (MenuItemIn.price payload) q)
    /\ forall oid' order, OrderIn.items order = [line] ->
         fst (place_order oid' order st') =
         Return (order_response oid'
                   (rounded_total
                      [PyFloat.mul (MenuItemIn.price payload) q])).
Proof.
  intros Hlen Hrest Hfresh Hid Hq. eexists. rewrite create_menu_item_eq.
  destruct (resolve st "restaurant" _); [|done].
  split; [reflexivity|].
  assert (Hline : line_amount
            (inserted oid "menuitem" (MenuItemIn.model_dump payload) st) line
          = Return (PyFloat.mul (MenuItemIn.price payload) q)).
  { unfold line_amount, float_mul_int.
    rewrite Hid, (resolve_inserted_new oid "menuitem" _ st Hlen Hfresh), Hq.
    reflexivity. }
  split; [done|]. intros oid' order Hitems.
  rewrite place_order_eq, Hitems, place_order_loop_cons, Hline.
  reflexivity.
Qed.

(** ** Failures of [place_order] *)

Lemma line_amount_raise_cases st item e :
  line_amount st item = Raise e ->
  (resolve st "menuitem" (OrderItemIn.menu_item_id item) = None
   /\ e = HTTPException 404
            ("Menu item not found: " +:+ OrderItemIn.menu_item_id item))
  \/ (resolve st "menuitem" (OrderItemIn.menu_item_id item) <> None
      /\ (e = TypeError \/ e = ValueError \/ e = OverflowError)).
Proof.
  unfold line_amount, float_mul_int.
  destruct (resolve _ _ _) as [mi|]; [|intros [= <-]; by left].
  intros He. right. split; [done|]. revert He.
  destruct (float_ _) as [p|e'] eqn:Hp.
  - destruct (PyFloat.of_int _); intros [= <-]; auto.
  - intros [= <-]. by apply float__raise in Hp.
Qed.

(** X7: whenever [place_order] fails, nothing was written, and the
    failure comes from one line of the request: the 404 NotFound that
    names the line's identifier when it does not resolve, and otherwise
    an uncaught TypeError, ValueError or OverflowError of the
    conversions of the stored price and the quantity. *)
Theorem place_order_failure oid payload st e st' :
  place_order oid payload st = (Raise e, st') ->
  st' = st
  /\ exists item, In item (OrderIn.items payload)
     /\ ((resolve st "menuitem" (OrderItemIn.menu_item_id item) = None
          /\ e = HTTPException 404
                   ("Menu item not found: "
                    +:+ OrderItemIn.menu_item_id item))
         \/ (resolve st "menuitem" (OrderItemIn.menu_item_id item) <> None
             /\ (e = TypeError \/ e = ValueError \/ e = OverflowError))).
Proof.
  intros Hpo. apply place_order_raise in Hpo as (-> & item & Hin & Hline).
  split; [done|]. exists item. split; [done|].
  by apply line_amount_raise_cases.
Qed.

(** X8: [place_order] succeeds on every request whose lines resolve to
    documents with a float price and whose quantities have at most 64
    bits, whatever their sign: the order is persisted and returned with
    the rounded sum of the line amounts. *)
Theorem place_order_succeeds oid payload st :
  Forall (fun item =>
            - 2 ^ 63 <= OrderItemIn.quantity item < 2 ^ 63
            /\ exists mi p,
                 resolve st "menuitem" (OrderItemIn.menu_item_id item)
                 = Some mi
                 /\ dict_lookup mi "price" = Some (VFloat p))
         (OrderIn.items payload) ->
  exists amounts,
    Forall2 (priced_line st) (OrderIn.items payload) amounts
    /\ place_order oid payload st =
         (Return (order_response oid (rounded_total amounts)),
          inserted oid "order"
            (order_doc payload (PyFloat.sum_from PyFloat.zero amounts)) st).
Proof.
  intros Hall.
  assert (Hpriced : exists amounts,
            Forall2 (priced_line st) (OrderIn.items payload) amounts).
  { induction Hall as [|item its (Hq & mi & p & Hres & Hp) _ [amounts IH]].
    - by exists [].
    - destruct (priced_line_int64 st item mi p Hres) as [a Ha]; [|done|].
      + unfold get. by rewrite Hp.
      + exists (a :: amounts). by constructor. }
  destruct Hpriced as [amounts Hpriced]. exists amounts. split; [done|].
  rewrite place_order_eq.
  by rewrite (place_order_loop_amounts st _ _ Hpriced).
Qed.

(** ** What the writing endpoints keep *)

Lemma has_ids_inserted oid c data st :
  has_ids st -> has_ids (inserted oid c data st).
Proof.
  intros Hst c' d. rewrite db_inserted.
  destruct (String.eqb c c'); [|apply Hst].
  intros [Hin | [<-|[]]]%in_app_or; [by apply (Hst c) | done].
Qed.

Lemma place_order_store oid payload st :
  snd (place_order oid payload st) = st
  \/ exists t, snd (place_order oid payload st)
               = inserted oid "order" (order_doc payload t) st.
Proof.
  rewrite place_order_eq.
  destruct (place_order_loop _ _ _) as [[t|e] st'']; [right | left];
    eauto.
Qed.

Lemma create_menu_item_store oid payload st :
  snd (create_menu_item oid payload st) = st
  \/ snd (create_menu_item oid payload st)
     = inserted oid "menuitem" (MenuItemIn.model_dump payload) st.
Proof.
  rewrite create_menu_item_eq. destruct (resolve _ _ _); auto.
Qed.

(** X9: the three writing endpoints keep the store well-formed: when
    every stored document has an [_id], so has every document of the
    store they leave, whether they succeed or fail. *)
Theorem has_ids_preserved st :
  has_ids st ->
  (forall oid payload, has_ids (snd (create_restaurant oid payload st)))
  /\ (forall oid payload, has_ids (snd (create_menu_item oid payload st)))
  /\ (forall oid payload, has_ids (snd (place_order oid payload st))).
Proof.
  intros Hst. split; [|split]; intros oid payload.
  - rewrite create_restaurant_eq. by apply has_ids_inserted.
  - destruct (create_menu_item_store oid payload st) as [-> | ->];
      [done | by apply has_ids_inserted].
  - destruct (place_order_store oid payload st) as [-> | [t ->]];
      [done | by apply has_ids_inserted].
Qed.

(** X10: the writing endpoints only append: the documents of every
    collection are kept, in order, at the head of the collection, and an
    identifier string that resolves keeps resolving to the same document
    after any of them. *)
Theorem endpoints_append_only st st' :
  (exists oid payload, st' = snd (create_restaurant oid payload st))
  \/ (exists oid payload, st' = snd (create_menu_item oid payload st))
  \/ (exists oid payload, st' = snd (place_order oid payload st)) ->
  (forall c, exists added, db st' c = db st c ++ added)
  /\ (forall c s d, resolve st c s = Some d -> resolve st' c s = Some d).
Proof.
  intros Hst'.
  assert (Hcases : st' = st \/ exists oid c data,
                                 st' = inserted oid c data st).
  { destruct Hst' as [(oid & p & ->)|[(oid & p & ->)|(oid & p & ->)]].
    - right. rewrite create_restaurant_eq. eauto.
    - destruct (create_menu_item_store oid p st) as [-> | ->]; eauto.
    - destruct (place_order_store oid p st) as [-> | [t ->]]; eauto. }
  destruct Hcases as [-> | (oid & c0 & data & ->)].
  - split; [|done]. intros c. exists []. by rewrite app_nil_r.
  - split.
    + intros c. rewrite db_inserted.
      destruct (String.eqb_spec c0 c) as [->|]; [by eexists|].
      exists []. by rewrite app_nil_r.
    + intros c s d. apply resolve_inserted_some.
Qed.

(** ** Listings *)

Lemma get_documents_all c st : get_documents c [] st = db st c.
Proof.
  unfold get_documents. induction (db st c) as [|d l IH]; [done|].
  cbn. by rewrite IH.
Qed.

Lemma get_documents_inserted oid c c' data filter_dict st :
  get_documents c' filter_dict (inserted oid c data st) =
  if String.eqb c c'
  then get_documents c' filter_dict st
       ++ (if matches filter_dict (("_id", VObjectId oid) :: data)
           then [("_id", VObjectId oid) :: data] else [])
  else get_documents c' filter_dict st.
Proof.
  unfold get_documents. rewrite db_inserted.
  destruct (String.eqb_spec c c') as [->|]; [|done].
  by rewrite List.filter_app.
Qed.

Lemma dict_lookup_set_same d k v : dict_lookup (dict_set d k v) k = Some v.
Proof.
  induction d as [|[k' v'] d IH]; cbn.
  - by rewrite String.eqb_refl.
  - destruct (String.eqb k' k) eqn:Hk; cbn; by rewrite Hk.
Qed.

Lemma dict_lookup_set_other d k k' v :
  k' <> k -> dict_lookup (dict_set d k v) k' = dict_lookup d k'.
Proof.
  intros Hne. induction d as [|[k0 v0] d IH]; cbn.
  - destruct (String.eqb_spec k k'); [congruence | done].
  - destruct (String.eqb_spec k0 k) as [->|]; cbn.
    + destruct (String.eqb_spec k k'); [congruence | done].
    + by rewrite IH.
Qed.

Lemma stringify_ids_app docs docs' :
  stringify_ids (docs ++ docs') =
  match stringify_ids docs, stringify_ids docs' with
  | Some l, Some l' => Some (l ++ l')
  | _, _ => None
  end.
Proof.
  induction docs as [|d docs IH]; cbn [app stringify_ids].
  - by destruct (stringify_ids docs').
  - destruct (dict_lookup d "_id"); [|done]. rewrite IH.
    by destruct (stringify_ids docs), (stringify_ids docs').
Qed.

Lemma stringify_ids_listed docs :
  Forall (fun d => dict_lookup d "_id" <> None) docs ->
  stringify_ids docs = Some (map listed docs).
Proof.
  induction 1 as [|d docs Hd _ IH]; [done|].
  cbn [stringify_ids map]. rewrite IH. unfold listed, get.
  by destruct (dict_lookup d "_id").
Qed.

Lemma stringify_ids_inserted oid data :
  stringify_ids [("_id", VObjectId oid) :: data]
  = Some [("_id", VStr (ObjectId.to_string oid)) :: data].
Proof. reflexivity. Qed.

(** X11: on a store whose documents all have an [_id], the three
    listings succeed; they give the documents of the collection (for
    [list_menu], those whose restaurant_id is the given string) in the
    order of the collection, each with its [_id] turned into a string,
    the hexadecimal string for an ObjectId, and its other fields as
    stored. *)
Theorem listings_of_store st :
  has_ids st ->
  list_restaurants st = Some (map listed (db st "restaurant"))
  /\ list_orders st = Some (map listed (db st "order"))
  /\ (forall rid,
        list_menu rid st =
        Some (map listed
                (List.filter (matches [("restaurant_id", rid)])
                   (db st "menuitem"))))
  /\ forall c d, In d (db st c) ->
       (exists v, dict_lookup d "_id" = Some v
                  /\ dict_lookup (listed d) "_id" = Some (VStr (str_ v)))
       /\ (forall o, dict_lookup d "_id" = Some (VObjectId o) ->
             dict_lookup (listed d) "_id"
             = Some (VStr (ObjectId.to_string o)))
       /\ (forall k, k <> "_id" ->
             dict_lookup (listed d) k = dict_lookup d k).
Proof.
  intros Hst.
  assert (Hcoll : forall c,
            Forall (fun d => dict_lookup d "_id" <> None) (db st c)).
  { intros c. apply List.Forall_forall. intros d Hd. by apply (Hst c). }
  split; [|split; [|split]].
  - unfold list_restaurants. rewrite get_documents_all.
    by apply stringify_ids_listed.
  - unfold list_orders. rewrite get_documents_all.
    by apply stringify_ids_listed.
  - intros rid. unfold list_menu, get_documents.
    apply stringify_ids_listed, List.Forall_forall.
    intros d [Hd _]%List.filter_In. by apply (Hst "menuitem").
  - intros c d Hd. pose proof (Hst c d Hd) as Hid. unfold listed, get.
    destruct (dict_lookup d "_id") as [v|] eqn:Hv; [|done].
    split; [|split].
    + exists v. by rewrite dict_lookup_set_same.
    + intros o [= ->]. by rewrite dict_lookup_set_same.
    + intros k Hk. by apply dict_lookup_set_other.
Qed.

Lemma matches_menu_item rid oid payload :
  matches [("restaurant_id", rid)]
    (("_id", VObjectId oid) :: MenuItemIn.model_dump payload)
  = String.eqb rid (MenuItemIn.restaurant_id payload).
Proof. cbn. by rewrite andb_true_r. Qed.

(** X12: a menu item that [create_menu_item] has created is listed last
    by [list_menu] for the restaurant_id string of the request, under
    the identifier that was returned and with the fields of the request;
    the menus of all other restaurant_id strings are as before. *)
Theorem create_menu_item_listed oid payload st r st' before :
  create_menu_item oid payload st = (Return r, st') ->
  list_menu (MenuItemIn.restaurant_id payload) st = Some before ->
  r = [("id", VStr (ObjectId.to_string oid))]
  /\ list_menu (MenuItemIn.restaurant_id payload) st' =
       Some (before
             ++ [("_id", VStr (ObjectId.to_string oid))
                 :: MenuItemIn.model_dump payload])
  /\ forall rid, rid <> MenuItemIn.restaurant_id payload ->
       list_menu rid st' = list_menu rid st.
Proof.
  rewrite create_menu_item_eq.
  destruct (resolve _ _ _); [|discriminate].
  intros [= <- <-] Hbefore. split; [done|].
  unfold list_menu in *. split.
  - rewrite get_documents_inserted. cbn [String.eqb Ascii.eqb Bool.eqb].
    rewrite matches_menu_item, String.eqb_refl, stringify_ids_app, Hbefore.
    by rewrite stringify_ids_inserted.
  - intros rid Hrid. rewrite get_documents_inserted.
    cbn [String.eqb Ascii.eqb Bool.eqb]. rewrite matches_menu_item.
    destruct (String.eqb_spec rid (MenuItemIn.restaurant_id payload));
      [done|].
    by rewrite app_nil_r.
Qed.

(** X15: [create_menu_item] resolves a well-formed restaurant_id without
    regard to case, but stores the string as it was given, and
    [list_menu] compares strings exactly: a menu item created with a
    restaurant_id that is not in lower case is accepted when the
    restaurant exists, and is not listed in the menu of the lower-case
    identifier, the one that [create_restaurant] returns. *)
Theorem create_menu_item_hidden_by_case oid payload st :
  well_formed (MenuItemIn.restaurant_id payload) = true ->
  lower_str (MenuItemIn.restaurant_id payload)
  <> MenuItemIn.restaurant_id payload ->
  resolve st "restaurant" (lower_str (MenuItemIn.restaurant_id payload))
  <> None ->
  exists st',
    create_menu_item oid payload st =
      (Return [("id", VStr (ObjectId.to_string oid))], st')
    /\ list_menu (lower_str (MenuItemIn.restaurant_id payload)) st'
       = list_menu (lower_str (MenuItemIn.restaurant_id payload)) st.
Proof.
  intros Hwf Hcase Hres. eexists. rewrite create_menu_item_eq.
  assert (Hkey : lookup_key (lower_str (MenuItemIn.restaurant_id payload))
                 = lookup_key (MenuItemIn.restaurant_id payload)).
  { destruct (lookup_key_well_formed _ Hwf) as (o & Ho & ->).
    unfold lookup_key. by rewrite of_string_lower_str, Ho. }
  unfold resolve in *. rewrite Hkey in Hres.
  destruct (find_one _ _); [|done]. split; [reflexivity|].
  unfold list_menu. rewrite get_documents_inserted.
  cbn [String.eqb Ascii.eqb Bool.eqb]. rewrite matches_menu_item.
  destruct (String.eqb_spec
              (lower_str (MenuItemIn.restaurant_id payload))
              (MenuItemIn.restaurant_id payload)); [done|].
  by rewrite app_nil_r.
Qed.

(** X13: an order that [place_order] has placed is listed last by
    [list_orders], under the identifier and with the total and the
    status of the response; the listings of restaurants and of menus are
    as before. *)
Theorem place_order_listed oid payload st r st' before :
  place_order oid payload st = (Return r, st') ->
  list_orders st = Some before ->
  exists total doc,
    r = order_response oid total
    /\ list_orders st' = Some (before ++ [doc])
    /\ dict_lookup doc "_id" = Some (VStr (ObjectId.to_string oid))
    /\ dict_lookup doc "total" = Some (VFloat total)
    /\ dict_lookup doc "status" = Some (VStr "placed")
    /\ list_restaurants st' = list_restaurants st
    /\ forall rid, list_menu rid st' = list_menu rid st.
Proof.
  rewrite place_order_eq.
  destruct (place_order_loop _ _ _) as [[t|e] st'']; [|discriminate].
  intros [= <- <-] Hbefore.
  exists (PyFloat.round t 2),
    (("_id", VStr (ObjectId.to_string oid)) :: order_doc payload t).
  split; [done|]. unfold list_orders, list_restaurants, list_menu in *.
  rewrite !get_documents_inserted. cbn [String.eqb Ascii.eqb Bool.eqb].
  split; [by rewrite stringify_ids_app, Hbefore|].
  do 4 (split; [reflexivity|]).
  intros rid. by rewrite get_documents_inserted.
Qed.

(** ** The sign of the total *)

Lemma ge0_cases x :
  ge0 x = true <->
  match x with
  | S754_zero _ => True
  | S754_finite s _ _ | S754_infinity s => s = false
  | S754_nan => False
  end.
Proof. destruct x as [[]|[]| |[] m e]; cbn; split; done. Qed.

Lemma round_nearest_even_ge m l : m <= round_nearest_even m l.
Proof.
  unfold round_nearest_even.
  destruct l as [|[]]; try destruct (Z.even _); lia.
Qed.

(** The rounding of a non-negative mantissa has the sign it is given. *)
Lemma binary_round_aux_sign s m e l :
  0 <= m ->
  match binary_round_aux PyFloat.prec PyFloat.emax s m e l with
  | S754_zero s' | S754_infinity s' | S754_finite s' _ _ => s' = s
  | S754_nan => False
  end.
Proof.
  intros Hm. unfold binary_round_aux.
  destruct (shr_fexp_bounds m e l Hm) as [H1 _].
  destruct (shr_fexp _ _ m e l) as [mrs' e']. cbn [fst] in H1.
  pose proof (round_nearest_even_bounds (shr_m mrs')
                (loc_of_shr_record mrs') (proj1 H1)) as Hr.
  destruct (shr_fexp_bounds _ e' loc_Exact (proj1 Hr)) as [H2 _].
  destruct (shr_fexp _ _ _ e' loc_Exact) as [mrs'' e'']. cbn [fst] in H2.
  destruct (shr_m mrs''); [done | by destruct (_ <=? _) | lia].
Qed.

Lemma binary_round_aux_ge0 m e l :
  0 <= m ->
  ge0 (binary_round_aux PyFloat.prec PyFloat.emax false m e l) = true.
Proof.
  intros Hm. apply ge0_cases.
  pose proof (binary_round_aux_sign false m e l Hm) as Hs.
  by destruct (binary_round_aux _ _ false m e l).
Qed.

Lemma shr_1_div2 mrs :
  0 <= shr_m mrs -> shr_m (shr_1 mrs) = shr_m mrs / 2.
Proof.
  destruct mrs as [[|[p|p|]|p] r s]; cbn [shr_1 shr_m]; intros Hm;
    try lia; by rewrite <- Z.div2_div.
Qed.

Lemma iter_shr_1_div p : forall mrs,
  0 <= shr_m mrs ->
  shr_m (SpecFloat.iter_pos shr_1 p mrs) = shr_m mrs / 2 ^ Zpos p.
Proof.
  induction p as [p IH|p IH|]; intros mrs Hm; cbn [SpecFloat.iter_pos].
  - pose proof (shr_1_bounds mrs Hm) as H1.
    pose proof (iter_shr_1_bounds p _ (proj1 H1)) as H2.
    assert (Hp : 0 < 2 ^ Zpos p) by (apply Z.pow_pos_nonneg; lia).
    assert (Hpow : 2 ^ Zpos p~1 = 2 * 2 ^ Zpos p * 2 ^ Zpos p).
    { assert (Zpos p~1 = Z.succ (Zpos p + Zpos p)) as -> by lia.
      rewrite Z.pow_succ_r, Z.pow_add_r by lia. lia. }
    rewrite (IH _ (proj1 H2)), (IH _ (proj1 H1)), (shr_1_div2 mrs Hm), Hpow.
    rewrite !Z.div_div by lia. f_equal. lia.
  - pose proof (iter_shr_1_bounds p _ Hm) as H2.
    assert (Hp : 0 < 2 ^ Zpos p) by (apply Z.pow_pos_nonneg; lia).
    assert (Hpow : 2 ^ Zpos p~0 = 2 ^ Zpos p * 2 ^ Zpos p).
    { assert (Zpos p~0 = Zpos p + Zpos p) as -> by lia.
      by rewrite Z.pow_add_r by lia. }
    rewrite (IH _ (proj1 H2)), (IH _ Hm), Hpow.
    rewrite Z.div_div by lia. f_equal.
  - by rewrite (shr_1_div2 mrs Hm).
Qed.

(** A shift to the exponent of the format keeps a positive mantissa
    positive when the exponent is not below the least one. *)
Lemma shr_fexp_pos m e l :
  0 < m -> emin PyFloat.prec PyFloat.emax <= e ->
  0 < shr_m (fst (shr_fexp PyFloat.prec PyFloat.emax m e l))
  /\ emin PyFloat.prec PyFloat.emax
     <= snd (shr_fexp PyFloat.prec PyFloat.emax m e l).
Proof.
  intros Hm He. unfold shr_fexp, shr.
  assert (Hrec : shr_m (shr_record_of_loc m l) = m)
    by (by destruct l as [|[]]).
  destruct (_ - e) as [|n|n] eqn:Hn; cbn [fst snd]; rewrite ?Hrec;
    [lia| |lia].
  split; [|lia].
  rewrite iter_shr_1_div, Hrec by lia.
  destruct m as [|p|p]; [lia| |lia]. cbn [Zdigits2] in Hn.
  pose proof (digits2_pos_lower p) as Hlow.
  unfold fexp, emin, PyFloat.prec, PyFloat.emax in *.
  apply Z.div_str_pos. split; [lia|].
  etransitivity; [|exact Hlow]. apply Z.pow_le_mono_r; lia.
Qed.

Lemma binary_round_aux_nonzero s m e l :
  0 < m -> emin PyFloat.prec PyFloat.emax <= e ->
  forall s', binary_round_aux PyFloat.prec PyFloat.emax s m e l
             <> S754_zero s'.
Proof.
  intros Hm He s'. unfold binary_round_aux.
  destruct (shr_fexp_pos m e l Hm He) as [H1 He'].
  destruct (shr_fexp _ _ m e l) as [mrs' e']. cbn [fst snd] in H1, He'.
  pose proof (round_nearest_even_ge (shr_m mrs') (loc_of_shr_record mrs'))
    as Hr.
  destruct (shr_fexp_pos (round_nearest_even (shr_m mrs')
                            (loc_of_shr_record mrs')) e' loc_Exact
              ltac:(lia) He') as [H2 _].
  destruct (shr_fexp _ _ _ e' loc_Exact) as [mrs'' e'']. cbn [fst] in H2.
  destruct (shr_m mrs''); [lia | by destruct (_ <=? _) | done].
Qed.

(** A positive integer converts to a positive finite float. *)
Lemma of_int_pos z q :
  0 < z -> PyFloat.of_int z = Some q ->
  exists m e, q = S754_finite false m e.
Proof.
  intros Hz. unfold PyFloat.of_int.
  destruct z as [|p|p]; [lia| |lia]. cbn [binary_normalize].
  unfold binary_round.
  destruct (shl_align p 0 _) as [mz ez] eqn:Hal.
  assert (Hez : emin PyFloat.prec PyFloat.emax <= ez).
  { unfold shl_align, fexp in Hal.
    destruct (_ - 0) in Hal; injection Hal as <- <-;
      unfold emin, PyFloat.prec, PyFloat.emax; lia. }
  pose proof (binary_round_aux_sign false (Zpos mz) ez loc_Exact
                ltac:(lia)) as Hs.
  pose proof (binary_round_aux_nonzero false (Zpos mz) ez loc_Exact
                ltac:(lia) Hez) as Hnz.
  destruct (binary_round_aux _ _ false (Zpos mz) ez loc_Exact)
    as [s|s| |s m e]; [by destruct (Hnz s) | done | done |].
  subst s. intros [= <-]. eauto.
Qed.

Lemma mul_ge0 p m e :
  ge0 p = true -> ge0 (PyFloat.mul p (S754_finite false m e)) = true.
Proof.
  intros Hp%ge0_cases.
  destruct p as [s|s| |s mp ep]; cbn in Hp; try done; subst;
    cbn [PyFloat.mul SFmul xorb]; try done.
  by apply binary_round_aux_ge0.
Qed.

Lemma add_ge0 x y :
  ge0 x = true -> ge0 y = true -> ge0 (PyFloat.add x y) = true.
Proof.
  intros Hx%ge0_cases Hy%ge0_cases.
  destruct x as [sx|sx| |sx mx ex], y as [sy|sy| |sy my ey];
    cbn in Hx, Hy; try done; subst; cbn [PyFloat.add SFadd];
    try done; try (by destruct sx); try (by destruct sx, sy).
  cbn [cond_Zopp]. rewrite <- Pos2Z.inj_add. cbn [binary_normalize].
  unfold binary_round.
  destruct (shl_align (_ + _) _ _). by apply binary_round_aux_ge0.
Qed.

Lemma sum_from_ge0 amounts : forall acc,
  ge0 acc = true -> Forall (fun a => ge0 a = true) amounts ->
  ge0 (PyFloat.sum_from acc amounts) = true.
Proof.
  unfold PyFloat.sum_from.
  induction amounts as [|a amounts IH]; intros acc Hacc Hall; [done|].
  apply Forall_cons in Hall as [Ha Hall]. cbn [fold_left].
  apply IH; [by apply add_ge0 | done].
Qed.

Lemma of_ratio_ge0 p q : ge0 (PyFloat.of_ratio false p q) = true.
Proof.
  unfold PyFloat.of_ratio, SFdiv_core_binary.
  set (m' := match _ - _ - _ with Z0 => _ | Zpos _ => _ | Zneg _ => _ end).
  assert (Hm' : 0 <= m').
  { unfold m'. destruct (_ - _ - _); [lia | | lia].
    apply Z.shiftl_nonneg. lia. }
  pose proof (Z_div_mod m' (Zpos q) ltac:(lia)) as Hdiv.
  destruct (Z.div_eucl m' (Zpos q)) as [d r].
  apply binary_round_aux_ge0. nia.
Qed.

Lemma round_ge0 x n : ge0 x = true -> ge0 (PyFloat.round x n) = true.
Proof.
  intros Hx. pose proof Hx as Hc%ge0_cases.
  destruct x as [s|s| |s m e]; cbn in Hc; try done. subst s.
  unfold PyFloat.round.
  destruct (match e with Zneg k => _ | _ => _ end) as [|p|p];
    try done.
  destruct (10 ^ Z.of_N n); try done. apply of_ratio_ge0.
Qed.

(** X14: when every line of a request resolves to a document whose
    price is a float with [0 <= price], as the [MenuItem] schema asks,
    and has a quantity from 1 to 2^63 - 1, as the [OrderItem] schema asks
    of a 64-bit quantity, [place_order] succeeds and its total satisfies
    [0 <= total], as the [Order] schema asks. *)
Theorem place_order_total_ge0 oid payload st :
  Forall (fun item =>
            1 <= OrderItemIn.quantity item < 2 ^ 63
            /\ exists mi p,
                 resolve st "menuitem" (OrderItemIn.menu_item_id item)
                 = Some mi
                 /\ dict_lookup mi "price" = Some (VFloat p)
                 /\ ge0 p = true)
         (OrderIn.items payload) ->
  exists total,
    fst (place_order oid payload st) = Return (order_response oid total)
    /\ ge0 total = true.
Proof.
  intros Hall.
  assert (Hpriced : exists amounts,
            Forall2 (priced_line st) (OrderIn.items payload) amounts
            /\ Forall (fun a => ge0 a = true) amounts).
  { induction Hall
      as [|item its (Hq & mi & p & Hres & Hp & Hge) _ (amounts & IH1 & IH2)].
    - exists []. by split.
    - destruct (of_int_int64 (OrderItemIn.quantity item)) as [q Hqf];
        [lia|].
      destruct (of_int_pos (OrderItemIn.quantity item) q ltac:(lia) Hqf)
        as (m & e & ->).
      exists (PyFloat.mul p (S754_finite false m e) :: amounts). split.
      + constructor; [|done]. exists mi, p, (S754_finite false m e).
        unfold get. by rewrite Hp.
      + constructor; [by apply mul_ge0 | done]. }
  destruct Hpriced as (amounts & Hpriced & Hge).
  exists (rounded_total amounts). split.
  - rewrite place_order_eq.
    by rewrite (place_order_loop_amounts st _ _ Hpriced).
  - apply round_ge0, sum_from_ge0; done.
Qed.

End Endpoints.

(** ** The properties on the sample data

    [float] is never applied to a string below, so any parser of float
    literals will do. *)

Lemma place_order_total_witness :
  let payload :=
    sample_order [line "654a1b2c3d4e5f60718293a4" 3; line "water" 2] in
  let amounts := [PyFloat.decimal 2997 2; PyFloat.zero] in
  Forall2 (priced_line (fun _ => None) sample_store)
    (OrderIn.items payload) amounts
  /\ place_order (fun _ => None) new_id payload sample_store =
       (Return (order_response new_id (PyFloat.decimal 2997 2)),
        inserted new_id "order"
          (order_doc payload (PyFloat.sum_from PyFloat.zero amounts))
          sample_store).
Proof.
  intros payload amounts.
  assert (H : Forall2 (priced_line (fun _ => None) sample_store)
                (OrderIn.items payload) amounts).
  { repeat constructor; apply priced_line_amount; vm_compute; reflexivity. }
  split; [exact H|].
  exact (proj1 (place_order_total (fun _ => None) new_id payload sample_store
                  amounts H)).
Defined.

(** An order of 2^1024 soups: the line resolves, and the conversion of the
    quantity to a float overflows. *)
Lemma place_order_total_overflow :
  let payload := sample_order [line "654a1b2c3d4e5f60718293a4" (2 ^ 1024)] in
  resolve sample_store "menuitem" "654a1b2c3d4e5f60718293a4" = Some soup
  /\ place_order (fun _ => None) new_id payload sample_store =
       (Raise OverflowError, sample_store).
Proof. split; vm_compute; reflexivity. Qed.

Lemma place_order_unresolved_line_witness :
  let pre := [line "654a1b2c3d4e5f60718293a4" 1] in
  let post := [line "water" 1] in
  let payload := sample_order (pre ++ line "nope" 1 :: post) in
  resolve sample_store "menuitem" "nope" = None
  /\ Forall (fun i => exists a, priced_line (fun _ => None) sample_store i a)
       pre
  /\ (exists e,
        place_order (fun _ => None) new_id payload sample_store
        = (Raise e, sample_store))
  /\ place_order (fun _ => None) new_id payload sample_store =
       (Raise (HTTPException 404 "Menu item not found: nope"), sample_store).
Proof.
  intros pre post payload.
  assert (Hnone : resolve sample_store "menuitem"
                    (OrderItemIn.menu_item_id (line "nope" 1)) = None)
    by (vm_compute; reflexivity).
  assert (Hpre : Forall (fun i => exists a,
                           priced_line (fun _ => None) sample_store i a)
                   pre).
  { repeat constructor. exists (PyFloat.decimal 999 2).
    apply priced_line_amount. vm_compute. reflexivity. }
  destruct (place_order_unresolved_line (fun _ => None) new_id payload
              sample_store pre (line "nope" 1) post eq_refl Hnone)
    as [Hex Hnf].
  split; [exact Hnone|]. split; [exact Hpre|].
  split; [exact Hex | exact (Hnf Hpre)].
Defined.

(** An unresolved line behind a line of 2^1024 soups: the failure is the
    overflow of the first line, not NotFound. *)
Lemma place_order_unresolved_after_overflow :
  let payload :=
    sample_order [line "654a1b2c3d4e5f60718293a4" (2 ^ 1024);
                  line "nope" 1] in
  resolve sample_store "menuitem" "nope" = None
  /\ place_order (fun _ => None) new_id payload sample_store =
       (Raise OverflowError, sample_store).
Proof. split; vm_compute; reflexivity. Qed.

Lemma place_order_empty_lines_witness :
  OrderIn.items (sample_order []) = []
  /\ place_order (fun _ => None) new_id (sample_order []) sample_store =
       (Return (order_response new_id PyFloat.zero),
        inserted new_id "order" (order_doc (sample_order []) PyFloat.zero)
          sample_store).
Proof.
  split; [reflexivity|].
  exact (proj1 (place_order_empty_lines (fun _ => None) new_id
                  (sample_order []) sample_store eq_refl)).
Defined.

(** An order without lines is accepted and persisted. *)
Lemma place_order_accepts_no_lines :
  place_order (fun _ => None) new_id (sample_order []) sample_store =
    (Return [("id", VStr "654a1b2c3d4e5f60718293a5");
             ("total", VFloat (S754_zero false));
             ("status", VStr "placed")],
     <["order" :=
         [[("_id", VObjectId new_id);
           ("customer_name", VStr "Ann");
           ("address", VStr "1 Road");
           ("restaurant_id", VStr "654a1b2c3d4e5f60718293a3");
           ("items", VList []);
           ("total", VFloat (S754_zero false));
           ("status", VStr "placed")]]]> sample_store).
Proof. vm_compute. reflexivity. Qed.

(** A line of quantity -2 is accepted as well, with a negative total. *)
Example place_order_negative_quantity :
  fst (place_order (fun _ => None) new_id
         (sample_order [line "654a1b2c3d4e5f60718293a4" (-2)]) sample_store)
  = Return [("id", VStr "654a1b2c3d4e5f60718293a5");
            ("total", VFloat (SFopp (PyFloat.decimal 1998 2)));
            ("status", VStr "placed")].
Proof. vm_compute. reflexivity. Qed.

Lemma malformed_identifier_not_found_witness :
  ObjectId.is_valid "abc" = false
  /\ find_one (db sample_store "restaurant") (VStr "abc") = None
  /\ find_one (db sample_store "menuitem") (VStr "abc") = None
  /\ find_by_id "menuitem" "water" sample_store
     = (Return (Some water), sample_store)
  /\ create_menu_item new_id (sample_menu_item "abc") sample_store
     = (Raise (HTTPException 404 "Restaurant not found"), sample_store)
  /\ place_order (fun _ => None) new_id (sample_order [line "abc" 1])
       sample_store
     = (Raise (HTTPException 404 "Menu item not found: abc"), sample_store).
Proof.
  assert (Hr : find_one (db sample_store "restaurant") (VStr "abc") = None)
    by (vm_compute; reflexivity).
  assert (Hm : find_one (db sample_store "menuitem") (VStr "abc") = None)
    by (vm_compute; reflexivity).
  destruct (malformed_identifier_not_found (fun _ => None) new_id
              sample_store "abc" eq_refl) as (_ & Hmenu & Horder).
  split; [reflexivity|]. split; [exact Hr|]. split; [exact Hm|].
  split; [|split].
  - exact (proj1 (malformed_identifier_not_found (fun _ => None) new_id
                    sample_store "water" eq_refl) "menuitem").
  - exact (proj2 (Hmenu (sample_menu_item "abc") eq_refl) Hr).
  - exact (proj2 (Horder (sample_order [line "abc" 1]) [] (line "abc" 1) []
                    eq_refl eq_refl) Hm ltac:(constructor)).
Defined.

(** The malformed identifier "abc" gets the 404 of an unresolved
    identifier from both endpoints, not a 400. *)
Lemma malformed_identifier_is_404 :
  ObjectId.is_valid "abc" = false
  /\ create_menu_item new_id (sample_menu_item "abc") sample_store
     = (Raise (HTTPException 404 "Restaurant not found"), sample_store)
  /\ place_order (fun _ => None) new_id (sample_order [line "abc" 1])
       sample_store
     = (Raise (HTTPException 404 "Menu item not found: abc"), sample_store).
Proof. repeat split; vm_compute; reflexivity. Qed.

Lemma find_by_id_key_witness :
  (well_formed "654A1B2C3D4E5F60718293A4" = true
   /\ ObjectId.is_valid "654A1B2C3D4E5F60718293A4" = true
   /\ exists o, ObjectId.of_string "654A1B2C3D4E5F60718293A4" = Some o
                /\ lookup_key "654A1B2C3D4E5F60718293A4" = VObjectId o)
  /\ (String.length blank_str = 24%nat /\ hex_pairs blank_str
      /\ ObjectId.is_valid blank_str = true
      /\ exists o, ObjectId.of_string blank_str = Some o
                   /\ lookup_key blank_str = VObjectId o)
  /\ (length soup_id = 12%nat
      /\ find_one (db sample_store "menuitem") (VObjectId soup_id) = Some soup
      /\ find_by_id "menuitem" (ObjectId.to_string soup_id) sample_store
         = (Return (Some soup), sample_store))
  /\ (ObjectId.is_valid "water" = false
      /\ find_one (db sample_store "menuitem") (VStr "water") = Some water
      /\ lookup_key "water" = VStr "water"
      /\ find_by_id "menuitem" "water" sample_store
         = (Return (Some water), sample_store)).
Proof.
  assert (Hsoup : find_one (db sample_store "menuitem") (VObjectId soup_id)
                  = Some soup) by (vm_compute; reflexivity).
  assert (Hwater : find_one (db sample_store "menuitem") (VStr "water")
                   = Some water) by (vm_compute; reflexivity).
  assert (Hpairs : hex_pairs blank_str).
  { unfold blank_str.
    repeat first
      [ apply hex_pairs_nil
      | apply hex_pairs_pair; [reflexivity | reflexivity |]
      | apply hex_pairs_space; [reflexivity|] ]. }
  split; [|split; [|split]].
  - destruct (find_by_id_key (fun _ => None) "menuitem"
                "654A1B2C3D4E5F60718293A4" sample_store)
      as (_ & _ & Hwf & Hkey & _).
    split; [reflexivity|]. split; [exact (Hwf eq_refl)|].
    exact (Hkey (Hwf eq_refl)).
  - destruct (find_by_id_key (fun _ => None) "menuitem" blank_str
                sample_store) as (_ & Hiff & _ & Hkey & _).
    split; [reflexivity|]. split; [exact Hpairs|].
    split; [exact (proj2 Hiff (conj eq_refl Hpairs))|].
    exact (Hkey (proj2 Hiff (conj eq_refl Hpairs))).
  - split; [reflexivity|]. split; [exact Hsoup|].
    destruct (find_by_id_key (fun _ => None) "menuitem" "water" sample_store)
      as (_ & _ & _ & _ & _ & Hid & _).
    exact (Hid soup_id soup eq_refl Hsoup).
  - destruct (find_by_id_key (fun _ => None) "menuitem" "water" sample_store)
      as (_ & _ & _ & _ & Hkey & _ & Hstr & _).
    split; [reflexivity|]. split; [exact Hwater|].
    split; [exact (Hkey eq_refl) | exact (Hstr water eq_refl Hwater)].
Defined.

(** The string of 22 hexadecimal digits and two blanks is not a
    24-character hexadecimal string, yet the lookup queries with an
    ObjectId, of 11 bytes, and not with the raw string: the menu item and
    the restaurant stored under that string are not found from it. *)
Lemma find_by_id_key_blanks :
  well_formed blank_str = false
  /\ ObjectId.is_valid blank_str = true
  /\ to_object_id blank_str = Return short_id
  /\ lookup_key blank_str = VObjectId short_id
  /\ find_one (db blank_store "menuitem") (VStr blank_str) = Some tea
  /\ find_by_id "menuitem" blank_str blank_store = (Return None, blank_store)
  /\ place_order (fun _ => None) new_id (sample_order [line blank_str 1])
       blank_store
     = (Raise (HTTPException 404
                 "Menu item not found: 654a1b2c3d4e5f60718293  "),
        blank_store)
  /\ create_menu_item new_id (sample_menu_item blank_str) blank_store
     = (Raise (HTTPException 404 "Restaurant not found"), blank_store).
Proof. repeat split; vm_compute; reflexivity. Qed.

Lemma create_menu_item_effect_witness :
  (resolve sample_store "restaurant" "nope" = None
   /\ create_menu_item new_id (sample_menu_item "nope") sample_store
      = (Raise (HTTPException 404 "Restaurant not found"), sample_store))
  /\ (resolve sample_store "restaurant" "654a1b2c3d4e5f60718293a3" <> None
      /\ exists st',
           create_menu_item new_id
             (sample_menu_item "654a1b2c3d4e5f60718293a3") sample_store
           = (Return [("id", VStr "654a1b2c3d4e5f60718293a5")], st')
           /\ db st' "menuitem" =
                db sample_store "menuitem"
                ++ [("_id", VObjectId new_id)
                    :: MenuItemIn.model_dump
                         (sample_menu_item "654a1b2c3d4e5f60718293a3")]
           /\ forall c, c <> "menuitem" -> st' !! c = sample_store !! c).
Proof.
  assert (Hnone : resolve sample_store "restaurant" "nope" = None)
    by (vm_compute; reflexivity).
  assert (Hsome : resolve sample_store "restaurant"
                    "654a1b2c3d4e5f60718293a3" <> None)
    by (vm_compute; discriminate).
  split.
  - split; [exact Hnone|].
    exact (proj1 (create_menu_item_effect new_id (sample_menu_item "nope")
                    sample_store) Hnone).
  - split; [exact Hsome|].
    exact (proj2 (create_menu_item_effect new_id
                    (sample_menu_item "654a1b2c3d4e5f60718293a3")
                    sample_store) Hsome).
Defined.

Lemma place_order_success_effect_witness :
  let payload := sample_order [line "654a1b2c3d4e5f60718293a4" 3] in
  let r := order_response new_id (PyFloat.decimal 2997 2) in
  let st' :=
    inserted new_id "order" (order_doc payload (PyFloat.decimal 2997 2))
      sample_store in
  place_order (fun _ => None) new_id payload sample_store = (Return r, st')
  /\ exists (total : float) (doc : document),
       r = [("id", VStr (ObjectId.to_string new_id));
            ("total", VFloat total);
            ("status", VStr "placed")]
       /\ db st' "order" = db sample_store "order" ++ [doc]
       /\ dict_lookup doc "total" = Some (VFloat total)
       /\ dict_lookup doc "status" = Some (VStr "placed")
       /\ forall c, c <> "order" -> st' !! c = sample_store !! c.
Proof.
  intros payload r st'.
  assert (H : place_order (fun _ => None) new_id payload sample_store
              = (Return r, st')) by (vm_compute; reflexivity).
  split; [exact H|].
  destruct (place_order_success_effect (fun _ => None) new_id payload
              sample_store r st' H)
    as (total & doc & Hr & Hdb & _ & _ & _ & _ & _ & Htotal & Hstatus & Hframe).
  exists total, doc. repeat split; assumption.
Defined.

Lemma place_order_total_noninterference_witness :
  let its := [line "654a1b2c3d4e5f60718293a4" 3; line "water" 1] in
  db sample_store "menuitem" = db other_store "menuitem"
  /\ OrderIn.items (sample_order its) = OrderIn.items (other_order its)
  /\ total_of (fst (place_order (fun _ => None) new_id (sample_order its)
                      sample_store))
     = total_of (fst (place_order (fun _ => None) soup_id (other_order its)
                        other_store))
  /\ new_order_totals sample_store
       (snd (place_order (fun _ => None) new_id (sample_order its)
               sample_store))
     = new_order_totals other_store
         (snd (place_order (fun _ => None) soup_id (other_order its)
                 other_store)).
Proof.
  intros its.
  assert (Hmenu : db sample_store "menuitem" = db other_store "menuitem")
    by (vm_compute; reflexivity).
  split; [exact Hmenu|]. split; [reflexivity|].
  exact (place_order_total_noninterference (fun _ => None) new_id soup_id
           (sample_order its) (other_order its) sample_store other_store
           Hmenu eq_refl).
Defined.

Lemma place_order_example_total_witness :
  let i1 := line "654a1b2c3d4e5f60718293a4" 3 in
  let i2 := line "654A1B2C3D4E5F60718293A4" 3 in
  let payload := sample_order [i1; i2] in
  line_amount (fun _ => None) sample_store i1
    = Return (PyFloat.decimal 2997 2)
  /\ fst (place_order (fun _ => None) new_id payload sample_store)
     = Return [("id", VStr "654a1b2c3d4e5f60718293a5");
               ("total", VFloat (PyFloat.decimal 5994 2));
               ("status", VStr "placed")].
Proof.
  intros i1 i2 payload.
  assert (Hf1 : resolve sample_store "menuitem" (OrderItemIn.menu_item_id i1)
                = Some soup) by (vm_compute; reflexivity).
  assert (Hf2 : resolve sample_store "menuitem" (OrderItemIn.menu_item_id i2)
                = Some soup) by (vm_compute; reflexivity).
  destruct (place_order_example_total (fun _ => None) new_id payload
              sample_store i1 i2 soup soup eq_refl eq_refl eq_refl Hf1 Hf2
              eq_refl eq_refl) as (H1 & _ & Hpo & _).
  split; [exact H1|]. rewrite Hpo. reflexivity.
Defined.

Lemma place_order_missing_price_witness :
  let item := line "water" 5 in
  let payload := sample_order [line "654a1b2c3d4e5f60718293a4" 3; item] in
  (resolve sample_store "menuitem" (OrderItemIn.menu_item_id item)
     = Some water
   /\ dict_lookup water "price" = None
   /\ PyFloat.of_int (OrderItemIn.quantity item) = Some (PyFloat.decimal 5 0))
  /\ line_amount (fun _ => None) sample_store item = Return PyFloat.zero
  /\ place_order (fun _ => None) new_id payload sample_store =
       (Return (order_response new_id (PyFloat.decimal 2997 2)),
        inserted new_id "order"
          (order_doc payload
             (PyFloat.sum_from PyFloat.zero
                [PyFloat.decimal 2997 2; PyFloat.zero]))
          sample_store).
Proof.
  intros item payload.
  assert (Hf : resolve sample_store "menuitem" (OrderItemIn.menu_item_id item)
               = Some water) by (vm_compute; reflexivity).
  assert (Hq : PyFloat.of_int (OrderItemIn.quantity item)
               = Some (PyFloat.decimal 5 0)) by (vm_compute; reflexivity).
  destruct (place_order_missing_price (fun _ => None) sample_store item
              water (PyFloat.decimal 5 0) Hf eq_refl Hq)
    as (_ & Hline & _ & Hpo).
  split; [by repeat split|]. split; [exact Hline|].
  apply (Hpo new_id payload [line "654a1b2c3d4e5f60718293a4" 3] []
             [PyFloat.decimal 2997 2] []); [reflexivity| |constructor].
  repeat constructor. apply priced_line_amount. vm_compute. reflexivity.
Defined.

(** A line of 2^1024 waters: the document has no price, and the
    conversion of the quantity to a float overflows. *)
Lemma place_order_missing_price_overflow :
  let payload := sample_order [line "water" (2 ^ 1024)] in
  resolve sample_store "menuitem" "water" = Some water
  /\ dict_lookup water "price" = None
  /\ place_order (fun _ => None) new_id payload sample_store =
       (Raise OverflowError, sample_store).
Proof. repeat split; vm_compute; reflexivity. Qed.

(** ** The further properties on the sample data *)

Lemma to_object_id_well_formed_witness :
  (well_formed "654A1B2C3D4E5F60718293A4" = true
   /\ exists o, to_object_id "654A1B2C3D4E5F60718293A4" = Return o
                /\ length o = 12%nat)
  /\ (ObjectId.is_valid blank_str = true
      /\ well_formed blank_str = false
      /\ exists o, to_object_id blank_str = Return o
                   /\ (length o <= 12)%nat /\ length o <> 12%nat)
  /\ (ObjectId.is_valid "654a1b2c3d4e5f60718293ag" = false
      /\ to_object_id "654a1b2c3d4e5f60718293ag"
         = Raise (HTTPException 400 "Invalid ID format")).
Proof.
  split; [|split].
  - split; [reflexivity|].
    destruct (to_object_id_well_formed "654A1B2C3D4E5F60718293A4")
      as (_ & _ & _ & Hwf).
    exact (Hwf eq_refl).
  - split; [reflexivity|]. split; [reflexivity|].
    destruct (to_object_id_well_formed blank_str) as (_ & Hv & _).
    destruct (Hv eq_refl) as (o & Ho & Hle & H12).
    exists o. split; [exact Ho|]. split; [exact Hle|].
    intros Hlen. apply H12 in Hlen. discriminate Hlen.
  - split; [reflexivity|].
    destruct (to_object_id_well_formed "654a1b2c3d4e5f60718293ag")
      as (_ & _ & Hinv & _).
    exact (Hinv eq_refl).
Defined.

Lemma to_object_id_round_trip_witness :
  (length soup_id = 12%nat
   /\ to_object_id (ObjectId.to_string soup_id) = Return soup_id)
  /\ (to_object_id blank_str = Return short_id
      /\ ObjectId.to_string short_id = "654a1b2c3d4e5f60718293")
  /\ (well_formed "654A1B2C3D4E5F60718293A4" = true
      /\ to_object_id "654A1B2C3D4E5F60718293A4" = Return soup_id
      /\ ObjectId.to_string soup_id = lower_str "654A1B2C3D4E5F60718293A4").
Proof.
  destruct to_object_id_round_trip as (Hto & Hfrom & Hwf).
  split; [|split].
  - split; [reflexivity|]. exact (Hto soup_id eq_refl).
  - split; [reflexivity|]. exact (Hfrom blank_str short_id eq_refl).
  - split; [reflexivity|]. split; [reflexivity|].
    exact (Hwf "654A1B2C3D4E5F60718293A4" soup_id eq_refl eq_refl).
Defined.

Lemma find_by_id_case_insensitive_witness :
  well_formed "654A1B2C3D4E5F60718293A4" = true
  /\ lower_str "654A1B2C3D4E5F60718293A4"
     = lower_str "654a1b2c3d4e5F60718293a4"
  /\ find_by_id "menuitem" "654A1B2C3D4E5F60718293A4" sample_store
     = find_by_id "menuitem" "654a1b2c3d4e5F60718293a4" sample_store.
Proof.
  split; [reflexivity|]. split; [reflexivity|].
  exact (find_by_id_case_insensitive "menuitem" "654A1B2C3D4E5F60718293A4"
           "654a1b2c3d4e5F60718293a4" sample_store eq_refl eq_refl).
Defined.

Lemma find_by_id_sound_witness :
  (find_by_id "menuitem" "654A1B2C3D4E5F60718293A4" sample_store
     = (Return (Some soup), sample_store)
   /\ In soup (db sample_store "menuitem")
   /\ dict_lookup soup "_id" = Some (VObjectId soup_id))
  /\ (find_by_id "menuitem" "water" sample_store
        = (Return (Some water), sample_store)
      /\ ObjectId.is_valid "water" = false
      /\ dict_lookup water "_id" = Some (VStr "water")).
Proof.
  assert (H : find_by_id "menuitem" "654A1B2C3D4E5F60718293A4" sample_store
              = (Return (Some soup), sample_store))
    by (vm_compute; reflexivity).
  assert (Hw : find_by_id "menuitem" "water" sample_store
               = (Return (Some water), sample_store))
    by (vm_compute; reflexivity).
  split.
  - destruct (find_by_id_sound "menuitem" "654A1B2C3D4E5F60718293A4"
                sample_store soup sample_store H) as (_ & Hin & Hid & _).
    split; [exact H|]. split; [exact Hin | exact Hid].
  - destruct (find_by_id_sound "menuitem" "water" sample_store water
                sample_store Hw) as (_ & _ & _ & _ & _ & Hstr).
    split; [exact Hw|]. split; [reflexivity | exact (Hstr eq_refl)].
Defined.

Lemma create_restaurant_then_menu_item_witness :
  length new_id = 12%nat
  /\ exists rid st',
       create_restaurant new_id sample_restaurant sample_store
       = (Return [("id", VStr rid)], st')
       /\ create_menu_item soup_id (sample_menu_item rid) st' =
            (Return [("id", VStr (ObjectId.to_string soup_id))],
             inserted soup_id "menuitem"
               (MenuItemIn.model_dump (sample_menu_item rid)) st').
Proof.
  split; [reflexivity|].
  destruct (create_restaurant_then_menu_item new_id sample_restaurant
              sample_store eq_refl) as (rid & st' & Hr & _ & _ & Hmenu).
  exists rid, st'. split; [exact Hr|].
  exact (Hmenu soup_id (sample_menu_item rid) eq_refl).
Defined.

Lemma create_menu_item_then_order_witness :
  let payload := sample_menu_item "654a1b2c3d4e5f60718293a3" in
  let item := line "654a1b2c3d4e5f60718293a5" 2 in
  (length new_id = 12%nat
   /\ resolve sample_store "restaurant" "654a1b2c3d4e5f60718293a3" <> None
   /\ find_one (db sample_store "menuitem") (VObjectId new_id) = None
   /\ PyFloat.of_int 2 = Some (PyFloat.decimal 2 0))
  /\ exists st',
       create_menu_item new_id payload sample_store =
         (Return [("id", VStr "654a1b2c3d4e5f60718293a5")], st')
       /\ line_amount (fun _ => None) st' item
          = Return (PyFloat.decimal 9 0)
       /\ fst (place_order (fun _ => None) roma_id (sample_order [item]) st')
          = Return (order_response roma_id (PyFloat.decimal 9 0)).
Proof.
  intros payload item.
  assert (Hrest : resolve sample_store "restaurant"
                    (MenuItemIn.restaurant_id payload) <> None)
    by (vm_compute; discriminate).
  assert (Hfresh : find_one (db sample_store "menuitem") (VObjectId new_id)
                   = None) by (vm_compute; reflexivity).
  assert (Hq : PyFloat.of_int (OrderItemIn.quantity item)
               = Some (PyFloat.decimal 2 0)) by (vm_compute; reflexivity).
  split; [by repeat split|].
  destruct (create_menu_item_then_order (fun _ => None) new_id payload
              sample_store item (PyFloat.decimal 2 0) eq_refl Hrest Hfresh
              eq_refl Hq) as (st' & Hcreate & Hline & Hpo).
  exists st'. split; [exact Hcreate|]. split; [exact Hline|].
  exact (Hpo roma_id (sample_order [item]) eq_refl).
Defined.

Lemma place_order_failure_witness :
  let payload := sample_order [line "water" 1; line "nope" 1] in
  place_order (fun _ => None) new_id payload sample_store
    = (Raise (HTTPException 404 "Menu item not found: nope"), sample_store)
  /\ exists item, In item (OrderIn.items payload)
     /\ ((resolve sample_store "menuitem" (OrderItemIn.menu_item_id item)
          = None
          /\ HTTPException 404 "Menu item not found: nope"
             = HTTPException 404
                 ("Menu item not found: " +:+ OrderItemIn.menu_item_id item))
         \/ (resolve sample_store "menuitem" (OrderItemIn.menu_item_id item)
             <> None
             /\ (HTTPException 404 "Menu item not found: nope" = TypeError
                 \/ HTTPException 404 "Menu item not found: nope"
                    = ValueError
                 \/ HTTPException 404 "Menu item not found: nope"
                    = OverflowError))).
Proof.
  intros payload.
  assert (H : place_order (fun _ => None) new_id payload sample_store
              = (Raise (HTTPException 404 "Menu item not found: nope"),
                 sample_store)) by (vm_compute; reflexivity).
  split; [exact H|].
  exact (proj2 (place_order_failure (fun _ => None) new_id payload
                  sample_store _ sample_store H)).
Defined.

Lemma place_order_succeeds_witness :
  let payload := sample_order [line "654a1b2c3d4e5f60718293a4" (-2)] in
  Forall (fun item =>
            - 2 ^ 63 <= OrderItemIn.quantity item < 2 ^ 63
            /\ exists mi p,
                 resolve sample_store "menuitem"
                   (OrderItemIn.menu_item_id item) = Some mi
                 /\ dict_lookup mi "price" = Some (VFloat p))
         (OrderIn.items payload)
  /\ exists amounts,
       Forall2 (priced_line (fun _ => None) sample_store)
         (OrderIn.items payload) amounts
       /\ place_order (fun _ => None) new_id payload sample_store =
            (Return (order_response new_id (rounded_total amounts)),
             inserted new_id "order"
               (order_doc payload (PyFloat.sum_from PyFloat.zero amounts))
               sample_store).
Proof.
  intros payload.
  assert (H : Forall (fun item =>
            - 2 ^ 63 <= OrderItemIn.quantity item < 2 ^ 63
            /\ exists mi p,
                 resolve sample_store "menuitem"
                   (OrderItemIn.menu_item_id item) = Some mi
                 /\ dict_lookup mi "price" = Some (VFloat p))
         (OrderIn.items payload)).
  { repeat constructor; [done..|].
    exists soup, (PyFloat.decimal 999 2). split; vm_compute; reflexivity. }
  split; [exact H|].
  exact (place_order_succeeds (fun _ => None) new_id payload sample_store H).
Defined.

Lemma has_ids_sample_store : has_ids sample_store.
Proof.
  intros c d. unfold db, sample_store.
  destruct (decide (c = "restaurant")) as [->|Hr].
  { rewrite lookup_insert_eq. intros [<-|[]]. discriminate. }
  rewrite lookup_insert_ne by done.
  destruct (decide (c = "menuitem")) as [->|Hm].
  { rewrite lookup_insert_eq. intros [<-|[<-|[]]]; discriminate. }
  rewrite lookup_insert_ne by done. by rewrite lookup_empty.
Defined.

Lemma has_ids_preserved_witness :
  has_ids sample_store
  /\ has_ids (snd (create_restaurant new_id sample_restaurant sample_store))
  /\ has_ids (snd (create_menu_item new_id
                     (sample_menu_item "654a1b2c3d4e5f60718293a3")
                     sample_store))
  /\ has_ids (snd (place_order (fun _ => None) new_id
                     (sample_order [line "water" 1]) sample_store)).
Proof.
  destruct (has_ids_preserved (fun _ => None) sample_store
              has_ids_sample_store) as (Hr & Hm & Ho).
  split; [exact has_ids_sample_store|].
  split; [apply Hr|]. split; [apply Hm | apply Ho].
Defined.

Lemma endpoints_append_only_witness :
  let st' := snd (place_order (fun _ => None) new_id
                    (sample_order [line "water" 1]) sample_store) in
  resolve sample_store "menuitem" "water" = Some water
  /\ (exists added, db st' "order" = db sample_store "order" ++ added)
  /\ resolve st' "menuitem" "water" = Some water.
Proof.
  intros st'.
  assert (Hw : resolve sample_store "menuitem" "water" = Some water)
    by (vm_compute; reflexivity).
  destruct (endpoints_append_only (fun _ => None) sample_store st')
    as [Happ Hres].
  { right. right. by exists new_id, (sample_order [line "water" 1]). }
  split; [exact Hw|]. split; [apply Happ | exact (Hres _ _ _ Hw)].
Defined.

Lemma listings_of_store_witness :
  has_ids sample_store
  /\ list_restaurants (fun _ => EmptyString) sample_store
     = Some [[("_id", VStr "654a1b2c3d4e5f60718293a3");
              ("name", VStr "Roma")]]
  /\ list_menu (fun _ => EmptyString) "654a1b2c3d4e5f60718293a3"
       sample_store
     = Some [[("_id", VStr "654a1b2c3d4e5f60718293a4");
              ("restaurant_id", VStr "654a1b2c3d4e5f60718293a3");
              ("title", VStr "Soup");
              ("price", VFloat (PyFloat.decimal 999 2))]]
  /\ list_orders (fun _ => EmptyString) sample_store = Some [].
Proof.
  destruct (listings_of_store (fun _ => EmptyString) sample_store
              has_ids_sample_store) as (Hr & Ho & Hm & _).
  split; [exact has_ids_sample_store|].
  split; [rewrite Hr; reflexivity|].
  split; [rewrite Hm; reflexivity | rewrite Ho; reflexivity].
Defined.

Lemma create_menu_item_listed_witness :
  let rid := "654a1b2c3d4e5f60718293a3" in
  let payload := sample_menu_item rid in
  let st' := inserted new_id "menuitem" (MenuItemIn.model_dump payload)
               sample_store in
  create_menu_item new_id payload sample_store =
    (Return [("id", VStr "654a1b2c3d4e5f60718293a5")], st')
  /\ list_menu (fun _ => EmptyString) rid sample_store
     = Some [[("_id", VStr "654a1b2c3d4e5f60718293a4");
              ("restaurant_id", VStr "654a1b2c3d4e5f60718293a3");
              ("title", VStr "Soup");
              ("price", VFloat (PyFloat.decimal 999 2))]]
  /\ list_menu (fun _ => EmptyString) rid st'
     = Some [[("_id", VStr "654a1b2c3d4e5f60718293a4");
              ("restaurant_id", VStr "654a1b2c3d4e5f60718293a3");
              ("title", VStr "Soup");
              ("price", VFloat (PyFloat.decimal 999 2))];
             (("_id", VStr "654a1b2c3d4e5f60718293a5")
              :: MenuItemIn.model_dump payload)]
  /\ list_menu (fun _ => EmptyString) "654A1B2C3D4E5F60718293A3" st'
     = list_menu (fun _ => EmptyString) "654A1B2C3D4E5F60718293A3"
         sample_store.
Proof.
  intros rid payload st'.
  assert (Hc : create_menu_item new_id payload sample_store =
               (Return [("id", VStr "654a1b2c3d4e5f60718293a5")], st'))
    by (vm_compute; reflexivity).
  assert (Hb : list_menu (fun _ => EmptyString)
                 (MenuItemIn.restaurant_id payload) sample_store
               = Some [[("_id", VStr "654a1b2c3d4e5f60718293a4");
                        ("restaurant_id", VStr "654a1b2c3d4e5f60718293a3");
                        ("title", VStr "Soup");
                        ("price", VFloat (PyFloat.decimal 999 2))]])
    by (vm_compute; reflexivity).
  destruct (create_menu_item_listed (fun _ => EmptyString) new_id payload
              sample_store _ st' _ Hc Hb) as (_ & Hl & Hother).
  split; [exact Hc|]. split; [exact Hb|]. split; [exact Hl|].
  apply Hother. discriminate.
Defined.

Lemma place_order_listed_witness :
  let payload := sample_order [line "654a1b2c3d4e5f60718293a4" 3] in
  let r := order_response new_id (PyFloat.decimal 2997 2) in
  let st' :=
    inserted new_id "order" (order_doc payload (PyFloat.decimal 2997 2))
      sample_store in
  place_order (fun _ => None) new_id payload sample_store = (Return r, st')
  /\ list_orders (fun _ => EmptyString) sample_store = Some []
  /\ exists total doc,
       r = order_response new_id total
       /\ list_orders (fun _ => EmptyString) st' = Some ([] ++ [doc])
       /\ dict_lookup doc "_id" = Some (VStr (ObjectId.to_string new_id))
       /\ dict_lookup doc "total" = Some (VFloat total).
Proof.
  intros payload r st'.
  assert (H : place_order (fun _ => None) new_id payload sample_store
              = (Return r, st')) by (vm_compute; reflexivity).
  assert (Hb : list_orders (fun _ => EmptyString) sample_store = Some [])
    by (vm_compute; reflexivity).
  split; [exact H|]. split; [exact Hb|].
  destruct (place_order_listed (fun _ => None) (fun _ => EmptyString) new_id
              payload sample_store r st' [] H Hb)
    as (total & doc & Hr & Hl & Hid & Ht & _).
  exists total, doc. repeat split; assumption.
Defined.

Lemma place_order_total_ge0_witness :
  let payload := sample_order [line "654a1b2c3d4e5f60718293a4" 3] in
  Forall (fun item =>
            1 <= OrderItemIn.quantity item < 2 ^ 63
            /\ exists mi p,
                 resolve sample_store "menuitem"
                   (OrderItemIn.menu_item_id item) = Some mi
                 /\ dict_lookup mi "price" = Some (VFloat p)
                 /\ ge0 p = true)
         (OrderIn.items payload)
  /\ exists total,
       fst (place_order (fun _ => None) new_id payload sample_store)
       = Return (order_response new_id total)
       /\ ge0 total = true.
Proof.
  intros payload.
  assert (H : Forall (fun item =>
            1 <= OrderItemIn.quantity item < 2 ^ 63
            /\ exists mi p,
                 resolve sample_store "menuitem"
                   (OrderItemIn.menu_item_id item) = Some mi
                 /\ dict_lookup mi "price" = Some (VFloat p)
                 /\ ge0 p = true)
         (OrderIn.items payload)).
  { repeat constructor; [done..|].
    exists soup, (PyFloat.decimal 999 2).
    repeat split; vm_compute; reflexivity. }
  split; [exact H|].
  exact (place_order_total_ge0 (fun _ => None) new_id payload sample_store H).
Defined.

Lemma create_menu_item_hidden_by_case_witness :
  let payload := sample_menu_item "654A1B2C3D4E5F60718293A3" in
  (well_formed "654A1B2C3D4E5F60718293A3" = true
   /\ lower_str "654A1B2C3D4E5F60718293A3" = "654a1b2c3d4e5f60718293a3"
   /\ resolve sample_store "restaurant" "654a1b2c3d4e5f60718293a3" <> None)
  /\ exists st',
       create_menu_item new_id payload sample_store =
         (Return [("id", VStr (ObjectId.to_string new_id))], st')
       /\ list_menu (fun _ => EmptyString) "654a1b2c3d4e5f60718293a3" st'
          = list_menu (fun _ => EmptyString) "654a1b2c3d4e5f60718293a3"
              sample_store.
Proof.
  intros payload.
  assert (Hres : resolve sample_store "restaurant"
                   (lower_str (MenuItemIn.restaurant_id payload)) <> None)
    by (vm_compute; discriminate).
  split; [by repeat split|].
  refine (create_menu_item_hidden_by_case (fun _ => EmptyString) new_id
            payload sample_store eq_refl _ Hres).
  discriminate.
Defined.
